(** * fileExtractor/main.py: the document text extraction gateway

    A shallow embedding of the FastAPI handlers of [fileExtractor/main.py]
    ([extract_text], [health_check]) together with the small part of the
    Python runtime they call: [str.split], [str.rfind], [pathlib]'s [name] and
    [suffix], [tempfile.NamedTemporaryFile], [Path.exists], [os.unlink], and
    the three statements [with], [try/except Exception] and [try/finally].

    The handler is effectful.  It is written here in a state-and-exception
    monad whose state holds the filesystem (a finite map from paths to
    contents), the two locals that the [finally] block reads, and a log of the
    external calls made so far.  Everything the handler does not control (the
    name generator of [tempfile], I/O failures, the Docling engine) is read
    from an environment record. *)

From Stdlib Require Import ZArith Ascii String Strings.Byte Lia.
From stdpp Require Import base tactics option list gmap strings pretty.

Local Open Scope Z_scope.

(** ** Python strings *)

Module Str.

(** [len(s)] *)
Definition len (s : string) : Z := Z.of_nat (String.length s).

(** [c in s] for a single character [c] *)
Fixpoint contains (c : ascii) (s : string) : bool :=
  match s with
  | EmptyString => false
  | String a s' => if Ascii.eqb a c then true else contains c s'
  end.

(** [s.split(sep)] for a single-character separator: the pieces between
    the separators, in order; the empty string gives one empty piece. *)
Fixpoint split (sep : ascii) (s : string) : list string :=
  match s with
  | EmptyString => [EmptyString]
  | String a s' =>
      if Ascii.eqb a sep then EmptyString :: split sep s'
      else match split sep s' with
           | [] => [String a EmptyString]
           | piece :: pieces => String a piece :: pieces
           end
  end.

(** [s.rfind(c)]: the highest index at which [c] occurs, or [-1]. *)
Fixpoint rfind (c : ascii) (s : string) : Z :=
  match s with
  | EmptyString => -1
  | String a s' =>
      let r := rfind c s' in
      if 0 <=? r then r + 1
      else if Ascii.eqb a c then 0 else -1
  end.

(** [s[n:]] for a natural number [n] *)
Fixpoint drop (n : nat) (s : string) : string :=
  match n, s with
  | O, _ => s
  | S n', EmptyString => EmptyString
  | S n', String _ s' => drop n' s'
  end.

(** [s[i:]]; a negative [i] counts from the end, as in Python. *)
Definition slice_from (i : Z) (s : string) : string :=
  if i <? 0 then drop (Z.to_nat (Z.max 0 (len s + i))) s
  else drop (Z.to_nat i) s.

(** Truth value of [s] where [s] may be [None]: [None] and the empty
    string are false. *)
Definition truthy (s : option string) : bool :=
  match s with
  | None => false
  | Some EmptyString => false
  | Some (String _ _) => true
  end.

End Str.

(** ** pathlib (POSIX flavour) *)

Module PurePath.

(** The components kept by the parser: the pieces between slashes that are
    neither empty nor a single dot.  (The root, when there is one, is kept
    apart and is never the [name].) *)
Definition keep_part (x : string) : bool :=
  negb (String.eqb x "") && negb (String.eqb x ".").

Definition parts (path : string) : list string :=
  List.filter keep_part (Str.split "/" path).

(** [PurePath(path).name]: the final component, if any. *)
Definition name (path : string) : string :=
  List.last (parts path) "".

(** [PurePath(path).suffix]:
<<
    name = self.name
    i = name.rfind('.')
    if 0 < i < len(name) - 1:
        return name[i:]
    else:
        return ''
>> *)
Definition suffix (path : string) : string :=
  let name := name path in
  let i := Str.rfind "." name in
  if (0 <? i) && (i <? Str.len name - 1) then Str.slice_from i name
  else "".

End PurePath.

(** What the specification's wording describes: everything from the last
    dot of the file name onward, or the empty string when there is no dot. *)
Definition from_last_dot (filename : string) : string :=
  let i := Str.rfind "." filename in
  if i <? 0 then "" else Str.slice_from i filename.

(** ** Values exchanged with the client *)

Abbreviation bytes := (list byte).

(** The handlers return Python dictionaries that FastAPI serialises to
    JSON; [JObj] keeps the keys in the order of the dictionary literal. *)
#[warnings="-register-all"]
Inductive json : Type :=
| JNull
| JBool (b : bool)
| JStr (s : string)
| JObj (fields : list (string * json)).

(** A value that is a string or [None]. *)
Definition json_of_optional (o : option string) : json :=
  match o with
  | None => JNull
  | Some s => JStr s
  end.

Fixpoint assoc (key : string) (fields : list (string * json)) : option json :=
  match fields with
  | [] => None
  | (k, v) :: rest => if String.eqb k key then Some v else assoc key rest
  end.

(** [d[key]] on a dictionary *)
Definition field (key : string) (d : json) : option json :=
  match d with
  | JObj fields => assoc key fields
  | _ => None
  end.

(** [fastapi.UploadFile]: the file name and the declared content type may
    both be absent; [payload] is what [await file.read()] yields. *)
Record UploadFile : Type := {
  filename : option string;
  content_type : option string;
  payload : bytes;
}.

(** ** Exceptions *)

(** [HTTPException] is the exception of the framework; [Exc] is any other
    instance of [Exception] ([OSError], [ValueError], an error of the
    engine, ...), [BaseExc] an exception outside [Exception]
    ([KeyboardInterrupt], [asyncio.CancelledError], ...).  The second
    argument of the last two is [str(e)]. *)
Inductive exn : Type :=
| HTTPException (status_code : Z) (detail : string)
| Exc (cls : string) (msg : string)
| BaseExc (cls : string) (msg : string).

(** [isinstance(e, Exception)] *)
Definition is_Exception (e : exn) : bool :=
  match e with
  | BaseExc _ _ => false
  | _ => true
  end.

(** [str(e)]; for [HTTPException] it is ["<status>: <detail>"]. *)
Definition str (e : exn) : string :=
  match e with
  | HTTPException status_code detail => pretty status_code +:+ ": " +:+ detail
  | Exc _ msg => msg
  | BaseExc _ msg => msg
  end.

(** ** The world the handler runs in *)

(** The external calls, in the order they are made, with their results. *)
Inductive event : Type :=
| EvNamedTemporaryFile (suffix : string) (res : exn + string)
| EvRead (res : option exn)
| EvWrite (path : string) (res : option exn)
| EvFlush (path : string) (res : option exn)
| EvClose (path : string) (res : option exn)
| EvDocumentConverter (res : option exn)
| EvConvert (path : string) (res : option exn)
| EvExport (res : exn + string)
| EvExists (path : string) (found : bool)
| EvExistsError (path : string) (e : exn)
| EvUnlink (path : string) (existed : bool) (res : option exn).

(** The object returned by [tempfile.NamedTemporaryFile]: its [name], the
    bytes written but not yet flushed, and whether it has been closed. *)
Record TemporaryFileWrapper : Type := {
  tf_name : string;
  tf_buffer : bytes;
  tf_closed : bool;
}.

(** The filesystem, the log, and the two locals of [extract_text] that
    outlive the [try] block.  [temp_file = None] is Python's [None];
    [temp_file_path = None] is a local that has not been assigned. *)
Record State : Type := {
  fs : gmap string bytes;
  log : list event;
  temp_file : option TemporaryFileWrapper;
  temp_file_path : option string;
}.

Definition initial (files : gmap string bytes) : State :=
  {| fs := files; log := []; temp_file := None; temp_file_path := None |}.

Definition set_fs (f : gmap string bytes) (s : State) : State :=
  {| fs := f; log := log s;
     temp_file := temp_file s; temp_file_path := temp_file_path s |}.

Definition emit (ev : event) (s : State) : State :=
  {| fs := fs s; log := log s ++ [ev];
     temp_file := temp_file s; temp_file_path := temp_file_path s |}.

Definition set_temp_file (v : option TemporaryFileWrapper) (s : State) : State :=
  {| fs := fs s; log := log s;
     temp_file := v; temp_file_path := temp_file_path s |}.

Definition set_temp_file_path (v : string) (s : State) : State :=
  {| fs := fs s; log := log s;
     temp_file := temp_file s; temp_file_path := Some v |}.

(** What the handler does not decide.  [None] in an error field means that
    the call succeeds.  [candidate_names] are the draws of the name
    generator of [tempfile], each a list of indices into its alphabet.
    The engine is a black box: [convert] sees the path and the filesystem,
    fails or yields a document, and may leave the filesystem changed.
    [exists_error] is the [OSError] that [Path.exists] lets through: the
    one of [stat] whose [errno] is not among [ENOENT], [ENOTDIR], [EBADF]
    and [ELOOP] (a directory that may not be searched, for one). *)
Record Env : Type := {
  Document : Type;
  gettempdir : string;
  candidate_names : list (list nat);
  open_error : option exn;
  read_error : option exn;
  write_error : option exn;
  flush_error : option exn;
  close_error : option exn;
  DocumentConverter_error : option exn;
  convert : string -> gmap string bytes -> (exn + Document) * gmap string bytes;
  export_to_markdown : Document -> exn + string;
  exists_error : option exn;
  unlink_error : option exn;
}.

(** ** The monad: state and Python exceptions *)

Inductive completion (A : Type) : Type :=
| Normal (a : A)
| Raised (e : exn).
Arguments Normal {A} a.
Arguments Raised {A} e.

Definition M (A : Type) : Type := State -> completion A * State.

Definition ret {A} (a : A) : M A := fun s => (Normal a, s).

Definition bind {A B} (m : M A) (k : A -> M B) : M B :=
  fun s =>
    match m s with
    | (Normal a, s') => k a s'
    | (Raised e, s') => (Raised e, s')
    end.

Definition raise {A} (e : exn) : M A := fun s => (Raised e, s).

Definition get : M State := fun s => (Normal s, s).

Definition modify (f : State -> State) : M unit := fun s => (Normal tt, f s).

#[global] Instance M_ret : MRet M := @ret.
#[global] Instance M_bind : MBind M := fun A B k m => bind m k.

(** [try: body / except Exception as e: handler e]: only instances of
    [Exception] are caught. *)
Definition try_except_Exception {A} (body : M A) (handler : exn -> M A) : M A :=
  fun s =>
    match body s with
    | (Normal a, s') => (Normal a, s')
    | (Raised e, s') =>
        if is_Exception e then handler e s' else (Raised e, s')
    end.

(** [try: body / finally: final]: [final] always runs; when it raises, its
    exception replaces whatever [body] returned or raised. *)
Definition try_finally {A} (body : M A) (final : M unit) : M A :=
  fun s =>
    match body s with
    | (c, s') =>
        match final s' with
        | (Normal _, s'') => (c, s'')
        | (Raised e, s'') => (Raised e, s'')
        end
    end.

(** ** tempfile *)

Module tempfile.

(** [_RandomNameSequence.characters] *)
Definition characters : string := "abcdefghijklmnopqrstuvwxyz0123456789_".

(** One draw of the generator: a character of the alphabet. *)
Definition choice (n : nat) : ascii :=
  List.nth (n mod 37)%nat (list_ascii_of_string characters) "_"%char.

Definition name_of (draws : list nat) : string :=
  string_of_list_ascii (List.map choice draws).

(** [os.path.join(dir, pre + name + suf)] *)
Definition candidate (dir pre suf : string) (draws : list nat) : string :=
  dir +:+ "/" +:+ pre +:+ name_of draws +:+ suf.

(** [_mkstemp_inner]: the file is opened with [O_EXCL], so a candidate
    that already exists is skipped; when every candidate is taken the
    call fails with [FileExistsError]. *)
Fixpoint mkstemp_inner (dir pre suf : string) (names : list (list nat))
    (files : gmap string bytes) : exn + string :=
  match names with
  | [] => inl (Exc "FileExistsError"
                   "[Errno 17] No usable temporary file name found")
  | draws :: rest =>
      let file := candidate dir pre suf draws in
      if bool_decide (is_Some (files !! file))
      then mkstemp_inner dir pre suf rest files
      else inr file
  end.

End tempfile.

(** ** The calls the handler makes *)

Section Handlers.

Variable env : Env.

(** [tempfile.NamedTemporaryFile(delete=False, suffix=suffix)] *)
Definition NamedTemporaryFile (suffix : string) : M TemporaryFileWrapper :=
  fun s =>
    let res :=
      match open_error env with
      | Some e => inl e
      | None => tempfile.mkstemp_inner (gettempdir env) "tmp" suffix
                  (candidate_names env) (fs s)
      end in
    let s1 := emit (EvNamedTemporaryFile suffix res) s in
    match res with
    | inl e => (Raised e, s1)
    | inr path =>
        (Normal {| tf_name := path; tf_buffer := []; tf_closed := false |},
         set_fs (<[path := []]> (fs s1)) s1)
    end.

(** [await file.read()] *)
Definition UploadFile_read (file : UploadFile) : M bytes :=
  fun s =>
    let s1 := emit (EvRead (read_error env)) s in
    match read_error env with
    | Some e => (Raised e, s1)
    | None => (Normal (payload file), s1)
    end.

Definition no_attribute (attr : string) : exn :=
  Exc "AttributeError"
      ("'NoneType' object has no attribute '" +:+ attr +:+ "'").

(** [temp_file.write(content)]: the bytes go to the buffer of the object
    that [temp_file] refers to. *)
Definition temp_file_write (content : bytes) : M unit :=
  fun s =>
    match temp_file s with
    | None => (Raised (no_attribute "write"), s)
    | Some f =>
        let s1 := emit (EvWrite (tf_name f) (write_error env)) s in
        match write_error env with
        | Some e => (Raised e, s1)
        | None =>
            (Normal tt,
             set_temp_file
               (Some {| tf_name := tf_name f;
                        tf_buffer := tf_buffer f ++ content;
                        tf_closed := tf_closed f |}) s1)
        end
    end.

(** Appending the buffer to the file on disk; a file that has lost its
    name in the meantime keeps no path to write to. *)
Definition write_out (f : TemporaryFileWrapper) (s : State) : State :=
  set_fs (alter (fun old => old ++ tf_buffer f) (tf_name f) (fs s)) s.

(** [temp_file.flush()] *)
Definition temp_file_flush : M unit :=
  fun s =>
    match temp_file s with
    | None => (Raised (no_attribute "flush"), s)
    | Some f =>
        let s1 := emit (EvFlush (tf_name f) (flush_error env)) s in
        match flush_error env with
        | Some e => (Raised e, s1)
        | None =>
            (Normal tt,
             set_temp_file
               (Some {| tf_name := tf_name f; tf_buffer := [];
                        tf_closed := tf_closed f |})
               (write_out f s1))
        end
    end.

(** [temp_file.__exit__(...)]: closes the file, which writes out what is
    left in the buffer.  With [delete=False] the file stays on disk. *)
Definition temp_file_exit : M unit :=
  fun s =>
    match temp_file s with
    | None => (Raised (no_attribute "__exit__"), s)
    | Some f =>
        let s1 := emit (EvClose (tf_name f) (close_error env)) s in
        match close_error env with
        | Some e => (Raised e, s1)
        | None =>
            (Normal tt,
             set_temp_file
               (Some {| tf_name := tf_name f; tf_buffer := [];
                        tf_closed := true |})
               (write_out f s1))
        end
    end.

(** [with ctx as temp_file: body]: the object is bound to the local
    [temp_file], and [__exit__] runs however [body] ends. *)
Definition with_as_temp_file (ctx : M TemporaryFileWrapper)
    (body : TemporaryFileWrapper -> M unit) : M unit :=
  f ← ctx;
  modify (set_temp_file (Some f));;
  try_finally (body f) temp_file_exit.

(** [Path(arg)]; the path is kept as its string. *)
Definition Path (arg : option string) : M string :=
  match arg with
  | Some p => mret p
  | None => raise (Exc "TypeError"
      "expected str, bytes or os.PathLike object, not NoneType")
  end.

(** Reading the local [temp_file_path]. *)
Definition load_temp_file_path : M string :=
  fun s =>
    match temp_file_path s with
    | Some p => (Normal p, s)
    | None => (Raised (Exc "UnboundLocalError"
        "cannot access local variable 'temp_file_path' where it is not associated with a value"), s)
    end.

(** [path.exists()]:
<<
    try:
        self.stat()
    except OSError as e:
        if not _ignore_error(e):
            raise
        return False
    except ValueError:
        return False
    return True
>>
    An error of [stat] that is not ignored is raised; otherwise the answer
    is whether the path is there. *)
Definition Path_exists (path : string) : M bool :=
  fun s =>
    match exists_error env with
    | Some e => (Raised e, emit (EvExistsError path e) s)
    | None =>
        let found := bool_decide (is_Some (fs s !! path)) in
        (Normal found, emit (EvExists path found) s)
    end.

(** [os.unlink(path)]: fails on a path that does not exist, may fail for
    a reason of the platform, and otherwise removes the file. *)
Definition os_unlink (path : string) : M unit :=
  fun s =>
    let existed := bool_decide (is_Some (fs s !! path)) in
    let res :=
      if existed then unlink_error env
      else Some (Exc "FileNotFoundError"
                     ("[Errno 2] No such file or directory: '" +:+ path +:+ "'")) in
    let s1 := emit (EvUnlink path existed res) s in
    match res with
    | Some e => (Raised e, s1)
    | None => (Normal tt, set_fs (delete path (fs s1)) s1)
    end.

(** [DocumentConverter()] *)
Definition DocumentConverter : M unit :=
  fun s =>
    let s1 := emit (EvDocumentConverter (DocumentConverter_error env)) s in
    match DocumentConverter_error env with
    | Some e => (Raised e, s1)
    | None => (Normal tt, s1)
    end.

(** [converter.convert(str(path))] *)
Definition converter_convert (path : string) : M (Document env) :=
  fun s =>
    match convert env path (fs s) with
    | (inl e, files) => (Raised e, emit (EvConvert path (Some e)) (set_fs files s))
    | (inr doc, files) => (Normal doc, emit (EvConvert path None) (set_fs files s))
    end.

(** [result.document.export_to_markdown()] *)
Definition document_export_to_markdown (doc : Document env) : M string :=
  fun s =>
    let res := export_to_markdown env doc in
    let s1 := emit (EvExport res) s in
    match res with
    | inl e => (Raised e, s1)
    | inr text => (Normal text, s1)
    end.

(** ** The handlers *)

(** The dictionary returned on success. *)
Definition extraction_result (file : UploadFile) (text_content : string) : json :=
  JObj [("filename", json_of_optional (filename file));
        ("content_type", json_of_optional (content_type file));
        ("text", JStr text_content);
        ("success", JBool true)].

(** The body of the [try]. *)
Definition try_block (file : UploadFile) : M json :=
  path ← Path (filename file);
  let suffix := PurePath.suffix path in
  with_as_temp_file (NamedTemporaryFile suffix) (fun f =>
    modify (set_temp_file_path (tf_name f));;
    content ← UploadFile_read file;
    temp_file_write content;;
    temp_file_flush);;
  DocumentConverter;;
  temp_file_path ← load_temp_file_path;
  document ← converter_convert temp_file_path;
  text_content ← document_export_to_markdown document;
  mret (extraction_result file text_content).

(** The [except Exception as e] clause. *)
Definition except_block {A} (e : exn) : M A :=
  raise (HTTPException 500 ("Error processing document: " +:+ str e)).

(** The [finally] clause:
    [if temp_file and temp_file_path.exists(): os.unlink(temp_file_path)]. *)
Definition finally_block : M unit :=
  s ← get;
  match temp_file s with
  | None => mret tt
  | Some _ =>
      path ← load_temp_file_path;
      found ← Path_exists path;
      if (found : bool) then os_unlink path else mret tt
  end.

(** [extract_text(file)] *)
Definition extract_text (file : UploadFile) : M json :=
  if negb (Str.truthy (filename file))
  then raise (HTTPException 400 "No file provided")
  else
    modify (set_temp_file None);;
    try_finally
      (try_except_Exception (try_block file) except_block)
      finally_block.

(** [health_check()] *)
Definition health_check : M json :=
  mret (JObj [("status", JStr "healthy");
              ("service", JStr "document-text-extraction")]).

(** [root()] *)
Definition root : M json :=
  mret (JObj [("message", JStr "Document Text Extraction API is running")]).

End Handlers.

(** ** What the framework sends *)

Inductive body : Type :=
| JsonBody (j : json)
| TextBody (text : string).

(** A returned dictionary is sent with status 200; an [HTTPException] with
    its status and the body [{"detail": detail}]; any other [Exception]
    as a plain 500.  An exception outside [Exception] ends the request
    without a response of the application. *)
Definition http_response (c : completion json) : option (Z * body) :=
  match c with
  | Normal v => Some (200, JsonBody v)
  | Raised (HTTPException status_code detail) =>
      Some (status_code, JsonBody (JObj [("detail", JStr detail)]))
  | Raised (Exc _ _) => Some (500, TextBody "Internal Server Error")
  | Raised (BaseExc _ _) => None
  end.

(** ** Concrete worlds, used to run the handler *)

(** An engine that passes plain text through: the document is the content
    of the file, read as text. *)
Definition plain_text_convert (path : string) (files : gmap string bytes)
    : (exn + string) * gmap string bytes :=
  match files !! path with
  | Some content => (inr (string_of_list_byte content), files)
  | None => (inl (Exc "FileNotFoundError" ("File not found: " +:+ path)), files)
  end.

(** A world in which nothing fails. *)
Definition calm : Env := {|
  Document := string;
  gettempdir := "/tmp";
  candidate_names := [[0; 1; 2; 3; 4; 5; 6; 7]%nat; [8; 9; 10; 11; 12; 13; 14; 15]%nat];
  open_error := None;
  read_error := None;
  write_error := None;
  flush_error := None;
  close_error := None;
  DocumentConverter_error := None;
  convert := plain_text_convert;
  export_to_markdown := inr;
  exists_error := None;
  unlink_error := None;
|}.

(** The same world with another engine. *)
Definition with_engine (env : Env) {D : Type}
    (conv : string -> gmap string bytes -> (exn + D) * gmap string bytes)
    (export : D -> exn + string) : Env := {|
  Document := D;
  gettempdir := gettempdir env;
  candidate_names := candidate_names env;
  open_error := open_error env;
  read_error := read_error env;
  write_error := write_error env;
  flush_error := flush_error env;
  close_error := close_error env;
  DocumentConverter_error := DocumentConverter_error env;
  convert := conv;
  export_to_markdown := export;
  exists_error := exists_error env;
  unlink_error := unlink_error env;
|}.

(** The same world in which [os.unlink] fails with [err], or succeeds. *)
Definition with_unlink_error (err : option exn) (env : Env) : Env := {|
  Document := Document env;
  gettempdir := gettempdir env;
  candidate_names := candidate_names env;
  open_error := open_error env;
  read_error := read_error env;
  write_error := write_error env;
  flush_error := flush_error env;
  close_error := close_error env;
  DocumentConverter_error := DocumentConverter_error env;
  convert := convert env;
  export_to_markdown := export_to_markdown env;
  exists_error := exists_error env;
  unlink_error := err;
|}.

Definition note_txt : UploadFile := {|
  filename := Some "note.txt";
  content_type := Some "text/plain";
  payload := list_byte_of_string "hello";
|}.

Definition permission_denied : exn :=
  Exc "PermissionError" "[Errno 13] Permission denied".

(** The calm world in which [os.unlink] is refused. *)
Definition stuck : Env := with_unlink_error (Some permission_denied) calm.

(** An engine that rejects every document. *)
Definition failing_convert (path : string) (files : gmap string bytes)
    : (exn + string) * gmap string bytes :=
  (inl (Exc "ConversionError" "bad"), files).

(** The calm world with the failing engine, and the same with a refused
    [os.unlink]. *)
Definition unreadable : Env := with_engine calm failing_convert inr.

Definition broken : Env := with_engine stuck failing_convert inr.

(** An engine that removes its input once it has read it. *)
Definition consuming_convert (path : string) (files : gmap string bytes)
    : (exn + string) * gmap string bytes :=
  ((plain_text_convert path files).1, delete path files).

Definition consuming : Env := with_engine calm consuming_convert inr.

(** A world in which the upload is cancelled while it is read. *)
Definition cancelled : Env := {|
  Document := string;
  gettempdir := "/tmp";
  candidate_names := [[0; 1; 2; 3; 4; 5; 6; 7]%nat];
  open_error := None;
  read_error := Some (BaseExc "CancelledError" "");
  write_error := None;
  flush_error := None;
  close_error := None;
  DocumentConverter_error := None;
  convert := plain_text_convert;
  export_to_markdown := inr;
  exists_error := None;
  unlink_error := None;
|}.

(** Another calm world: another temporary directory, another draw. *)
Definition elsewhere : Env := {|
  Document := string;
  gettempdir := "/var/tmp";
  candidate_names := [[30; 31; 32; 33; 34; 35; 36; 0]%nat];
  open_error := None;
  read_error := None;
  write_error := None;
  flush_error := None;
  close_error := None;
  DocumentConverter_error := None;
  convert := plain_text_convert;
  export_to_markdown := inr;
  exists_error := None;
  unlink_error := None;
|}.

(** The plain-text engine as a function of the contents and the suffix. *)
Definition decode (contents : option bytes) (suffix : string) : option string :=
  string_of_list_byte <$> contents.

(** An upload that carries no file name. *)
Definition no_file_part : UploadFile :=
  {| filename := None; content_type := None; payload := [] |}.

(** An upload whose name is a dot file. *)
Definition bashrc : UploadFile := {|
  filename := Some ".bashrc";
  content_type := None;
  payload := list_byte_of_string "alias ll='ls -l'";
|}.

(** The calm world in which the existence check of the cleanup is refused. *)
Definition unsearchable : Env := {|
  Document := string;
  gettempdir := "/tmp";
  candidate_names := [[0; 1; 2; 3; 4; 5; 6; 7]%nat];
  open_error := None;
  read_error := None;
  write_error := None;
  flush_error := None;
  close_error := None;
  DocumentConverter_error := None;
  convert := plain_text_convert;
  export_to_markdown := inr;
  exists_error := Some permission_denied;
  unlink_error := None;
|}.

(** ** Observing one request *)

(** One request, handled from a fresh log on the filesystem [files]. *)
Definition run (env : Env) (file : UploadFile) (files : gmap string bytes)
    : completion json * State :=
  extract_text env file (initial files).

Definition response (env : Env) (file : UploadFile) (files : gmap string bytes)
    : completion json :=
  (run env file files).1.

Definition events (env : Env) (file : UploadFile) (files : gmap string bytes)
    : list event :=
  log (run env file files).2.

Definition files_after (env : Env) (file : UploadFile) (files : gmap string bytes)
    : gmap string bytes :=
  fs (run env file files).2.

(** What is pending when the [finally] clause starts: the result of the
    [try] with its [except] clause. *)
Definition pending (env : Env) (file : UploadFile) (files : gmap string bytes)
    : completion json * State :=
  try_except_Exception (try_block env file) except_block (initial files).

(** The request created the temporary file [path]. *)
Definition creates (l : list event) (path : string) : Prop :=
  exists suffix, In (EvNamedTemporaryFile suffix (inr path)) l.

Definition is_unlink (ev : event) : bool :=
  match ev with
  | EvUnlink _ _ _ => true
  | _ => false
  end.

(** The calls of the [finally] clause. *)
Definition is_cleanup (ev : event) : bool :=
  match ev with
  | EvExists _ _ | EvExistsError _ _ | EvUnlink _ _ _ => true
  | _ => false
  end.

(** The calls made between the creation of the file and the cleanup. *)
Definition inner_event (ev : event) : bool :=
  match ev with
  | EvNamedTemporaryFile _ _ | EvExists _ _ | EvExistsError _ _
  | EvUnlink _ _ _ => false
  | _ => true
  end.

(** The exception of the deletion that failed, if one did. *)
Fixpoint unlink_failure (l : list event) : option exn :=
  match l with
  | [] => None
  | EvUnlink _ _ (Some e) :: _ => Some e
  | _ :: rest => unlink_failure rest
  end.

(** The exception that the [finally] clause raised, if it raised one: the
    one of the existence check or the one of the deletion. *)
Fixpoint cleanup_failure (l : list event) : option exn :=
  match l with
  | [] => None
  | EvExistsError _ e :: _ => Some e
  | EvUnlink _ _ (Some e) :: _ => Some e
  | _ :: rest => cleanup_failure rest
  end.

(** What the [finally] clause logs for [path]: the existence check, and
    the deletion when the check answered that the file is there. *)
Definition cleanup_events (env : Env) (path : string) (found : bool)
    : list event :=
  match exists_error env with
  | Some e => [EvExistsError path e]
  | None =>
      EvExists path found
        :: (if found then [EvUnlink path true (unlink_error env)] else [])
  end.

(** The exception the [finally] clause raises. *)
Definition cleanup_exception (env : Env) (found : bool) : option exn :=
  match exists_error env with
  | Some e => Some e
  | None => if found then unlink_error env else None
  end.

(** The markdown the engine yields for [path] on [files], when it yields
    one. *)
Definition engine_text (env : Env) (path : string) (files : gmap string bytes)
    : option string :=
  match (convert env path files).1 with
  | inl _ => None
  | inr doc =>
      match export_to_markdown env doc with
      | inl _ => None
      | inr text => Some text
      end
  end.

(** The engine of [env] is the function [f] of the contents of the file and
    of the suffix of its path. *)
Definition engine_is (env : Env) (f : option bytes -> string -> option string) : Prop :=
  forall path files,
    engine_text env path files = f (files !! path) (PurePath.suffix path).

(** Symbolic execution: case analysis on the next call that decides how the
    handler goes on. *)
Ltac step :=
  match goal with
  | |- context [match ?x with _ => _ end] =>
      lazymatch x with
      | context [match _ with _ => _ end] => fail
      | _ => destruct x eqn:?
      end
  end.

Ltac unfold_calls :=
  unfold try_except_Exception, try_block, with_as_temp_file, NamedTemporaryFile,
    Path, UploadFile_read, temp_file_write, temp_file_flush, temp_file_exit,
    DocumentConverter, load_temp_file_path, converter_convert,
    document_export_to_markdown, try_finally, except_block, finally_block,
    Path_exists, os_unlink, get,
    mbind, M_bind, bind, mret, M_ret, ret, raise, modify, write_out in *.

Ltac execute := unfold_calls; simpl in *; repeat (step; simpl in * ).

(** Unfolding [+:+] on a literal prefix. *)
Ltac norm_append :=
  repeat match goal with
         | |- context [String.append EmptyString ?t] =>
             change (String.append EmptyString t) with t
         | |- context [String.append (String ?a ?s) ?t] =>
             change (String.append (String a s) t)
               with (String a (String.append s t))
         end.

(** Case analysis on every comparison of the goal. *)
Ltac decide_ltb :=
  repeat match goal with
         | |- context [Z.ltb ?a ?b] => destruct (Z.ltb_spec a b)
         end.

(** ** Further observations on a request *)

Definition is_close (ev : event) : bool :=
  match ev with
  | EvClose _ _ => true
  | _ => false
  end.

(** What [converter.convert] does on [path] and [files]: the exception it
    raises, or [None] when it yields a document. *)
Definition convert_result (env : Env) (path : string) (files : gmap string bytes)
    : option exn :=
  match (convert env path files).1 with
  | inl e => Some e
  | inr _ => None
  end.


(** The call an event records, by number. *)
Definition kind (ev : event) : nat :=
  match ev with
  | EvNamedTemporaryFile _ _ => 0
  | EvRead _ => 1
  | EvWrite _ _ => 2
  | EvFlush _ _ => 3
  | EvClose _ _ => 4
  | EvDocumentConverter _ => 5
  | EvConvert _ _ => 6
  | EvExport _ => 7
  | EvExists _ _ => 8
  | EvExistsError _ _ => 8
  | EvUnlink _ _ _ => 9
  end%nat.

(** A world in which no call other than the engine's can fail. *)
Definition no_io_failure (env : Env) : Prop :=
  open_error env = None /\ read_error env = None /\ write_error env = None
  /\ flush_error env = None /\ close_error env = None
  /\ DocumentConverter_error env = None
  /\ exists_error env = None /\ unlink_error env = None.

(** The calm world with a temporary directory that cannot be written. *)
Definition full_disk : Env := {|
  Document := string;
  gettempdir := "/tmp";
  candidate_names := [[0; 1; 2; 3; 4; 5; 6; 7]%nat];
  open_error := Some (Exc "OSError" "[Errno 28] No space left on device");
  read_error := None;
  write_error := None;
  flush_error := None;
  close_error := None;
  DocumentConverter_error := None;
  convert := plain_text_convert;
  export_to_markdown := inr;
  exists_error := None;
  unlink_error := None;
|}.

(** The bytes of [note_txt] under another name and without a declared
    content type. *)
Definition memo_txt : UploadFile := {|
  filename := Some "minutes/memo.txt";
  content_type := None;
  payload := list_byte_of_string "hello";
|}.

(** * Facts about the runtime model *)

(** ** Strings *)

Section StrFacts.
Variable c : ascii.

Lemma len_cons a s : Str.len (String a s) = Str.len s + 1.
Proof. unfold Str.len. simpl String.length. lia. Qed.

Lemma len_nonneg s : 0 <= Str.len s.
Proof. unfold Str.len. lia. Qed.

Lemma len_app s t : Str.len (s +:+ t) = Str.len s + Str.len t.
Proof.
  induction s as [|a s IH]; norm_append.
  - change (Str.len EmptyString) with 0. lia.
  - rewrite !len_cons, IH. lia.
Qed.

Lemma len_zero s : Str.len s = 0 -> s = "".
Proof. destruct s; [done|]. rewrite len_cons. pose proof (len_nonneg s). lia. Qed.

Lemma contains_app s t :
  Str.contains c (s +:+ t) = Str.contains c s || Str.contains c t.
Proof.
  induction s as [|a s IH]; norm_append; simpl; [done|].
  by destruct (Ascii.eqb a c).
Qed.

Lemma contains_drop n s :
  Str.contains c s = false -> Str.contains c (Str.drop n s) = false.
Proof.
  revert s. induction n as [|n IH]; intros [|a s]; simpl; try done.
  destruct (Ascii.eqb a c); [done|]. apply IH.
Qed.

Lemma drop_app s t : Str.drop (String.length s) (s +:+ t) = t.
Proof. induction s as [|a s IH]; norm_append; simpl; [by destruct t|done]. Qed.

Lemma slice_from_app s t : Str.slice_from (Str.len s) (s +:+ t) = t.
Proof.
  unfold Str.slice_from. pose proof (len_nonneg s).
  destruct (Z.ltb_spec (Str.len s) 0); [lia|].
  unfold Str.len. rewrite Nat2Z.id. apply drop_app.
Qed.

Lemma rfind_ge s : -1 <= Str.rfind c s.
Proof.
  induction s as [|a s IH]; simpl; [lia|].
  destruct (Z.leb_spec 0 (Str.rfind c s)); [lia|].
  destruct (Ascii.eqb a c); lia.
Qed.

Lemma rfind_absent s : Str.contains c s = false -> Str.rfind c s = -1.
Proof.
  induction s as [|a s IH]; simpl; [done|].
  destruct (Ascii.eqb a c); [done|]. intros H. by rewrite IH.
Qed.

Lemma rfind_app stem ext :
  Str.contains c ext = false ->
  Str.rfind c (stem +:+ String c ext) = Str.len stem.
Proof.
  intros Hext. induction stem as [|a stem IH]; norm_append; simpl.
  - rewrite rfind_absent by done. simpl. by rewrite Ascii.eqb_refl.
  - rewrite IH, len_cons. pose proof (len_nonneg stem).
    destruct (Z.leb_spec 0 (Str.len stem)); [done|lia].
Qed.

(** A string either lacks [c], or splits at its last [c]. *)
Lemma last_occurrence s :
  Str.contains c s = false
  \/ exists stem ext, s = stem +:+ String c ext /\ Str.contains c ext = false.
Proof.
  induction s as [|a s [IH|(stem & ext & -> & Hext)]]; simpl.
  - by left.
  - destruct (Ascii.eqb_spec a c) as [->|Hne]; [|by left].
    right. by exists "", s.
  - right. by exists (String a stem), ext.
Qed.

Lemma split_nonempty s : Str.split c s <> [].
Proof.
  destruct s as [|a s]; simpl; [done|].
  destruct (Ascii.eqb a c); [done|]. by destruct (Str.split c s).
Qed.

Lemma split_absent s : Str.contains c s = false -> Str.split c s = [s].
Proof.
  induction s as [|a s IH]; simpl; [done|].
  destruct (Ascii.eqb a c); [done|]. intros H. by rewrite IH.
Qed.

Lemma split_app s t :
  Str.split c (s +:+ String c t) = Str.split c s ++ Str.split c t.
Proof.
  induction s as [|a s IH]; norm_append; simpl.
  - by rewrite Ascii.eqb_refl.
  - destruct (Ascii.eqb a c); [by rewrite IH|].
    rewrite IH. pose proof (split_nonempty s).
    by destruct (Str.split c s).
Qed.

Lemma split_pieces s :
  List.Forall (fun piece => Str.contains c piece = false) (Str.split c s).
Proof.
  induction s as [|a s IH]; simpl.
  - by repeat constructor.
  - destruct (Ascii.eqb a c) eqn:Hac; [by constructor|].
    destruct (Str.split c s) as [|piece pieces]; [by repeat constructor; simpl; rewrite Hac|].
    inversion IH; subst. constructor; [|done]. simpl. by rewrite Hac.
Qed.
End StrFacts.

(** ** pathlib and tempfile *)

Lemma append_assoc s t u : (s +:+ t) +:+ u = s +:+ t +:+ u.
Proof. induction s as [|a s IH]; norm_append; [done|by rewrite IH]. Qed.

Lemma append_empty_r s : s +:+ "" = s.
Proof. induction s as [|a s IH]; norm_append; [done|by rewrite IH]. Qed.

Lemma last_default_or_In {A} (l : list A) (d : A) :
  List.last l d = d \/ In (List.last l d) l.
Proof.
  induction l as [|x [|y l] IH]; simpl in *; [by left|by right; left|].
  destruct IH as [IH|IH]; [by left|by right; right].
Qed.

Lemma name_no_slash path : Str.contains "/" (PurePath.name path) = false.
Proof.
  unfold PurePath.name, PurePath.parts.
  destruct (last_default_or_In
              (List.filter PurePath.keep_part (Str.split "/" path)) "")
    as [->|Hin]; [done|].
  apply filter_In in Hin as [Hin _].
  pose proof (split_pieces "/" path) as Hall.
  rewrite List.Forall_forall in Hall. by apply Hall.
Qed.

Lemma name_join dir x :
  Str.contains "/" x = false -> PurePath.keep_part x = true ->
  PurePath.name (dir +:+ "/" +:+ x) = x.
Proof.
  intros Hx Hkeep. unfold PurePath.name, PurePath.parts.
  change ("/" +:+ x) with (String "/" x).
  rewrite split_app, List.filter_app, (split_absent _ x) by done.
  simpl. rewrite Hkeep. apply List.last_last.
Qed.

Lemma name_plain filename :
  Str.contains "/" filename = false -> filename <> "." ->
  PurePath.name filename = filename.
Proof.
  intros Hno Hdot. unfold PurePath.name, PurePath.parts.
  rewrite split_absent by done. simpl. unfold PurePath.keep_part.
  destruct (String.eqb_spec filename ""); [by subst|].
  destruct (String.eqb_spec filename "."); done.
Qed.

Lemma suffix_without_dot filename :
  Str.contains "." (PurePath.name filename) = false ->
  PurePath.suffix filename = "".
Proof.
  intros Habsent. unfold PurePath.suffix. by rewrite rfind_absent.
Qed.

(** The suffix of a name that splits at its last dot into [stem] and
    [ext]. *)
Lemma suffix_at_last_dot filename stem ext :
  PurePath.name filename = stem +:+ String "." ext ->
  Str.contains "." ext = false ->
  PurePath.suffix filename =
    match stem, ext with
    | EmptyString, _ | _, EmptyString => ""
    | _, _ => String "." ext
    end
  /\ from_last_dot (PurePath.name filename) = String "." ext.
Proof.
  intros Hname Hext. unfold PurePath.suffix, from_last_dot.
  rewrite Hname, rfind_app, len_app, len_cons, slice_from_app by done.
  pose proof (len_nonneg stem). pose proof (len_nonneg ext).
  split; [|by decide_ltb; try lia].
  destruct stem as [|a stem]; [done|].
  destruct ext as [|b ext].
  - change (Str.len "") with 0. by decide_ltb; try lia.
  - rewrite !len_cons in *.
    pose proof (len_nonneg stem). pose proof (len_nonneg ext).
    by decide_ltb; try lia.
Qed.

Lemma suffix_shape filename :
  PurePath.suffix filename = ""
  \/ exists ext, PurePath.suffix filename = String "." ext
                 /\ ext <> "" /\ Str.contains "." ext = false
                 /\ Str.contains "/" ext = false.
Proof.
  destruct (last_occurrence "." (PurePath.name filename))
    as [Habsent|(stem & ext & Hname & Hext)].
  { left. by apply suffix_without_dot. }
  destruct (suffix_at_last_dot filename stem ext Hname Hext) as [-> _].
  destruct stem as [|a stem]; [by left|]. destruct ext as [|b ext]; [by left|].
  right. exists (String b ext). repeat split; try done.
  pose proof (name_no_slash filename) as Hslash.
  rewrite Hname, contains_app in Hslash.
  by apply orb_false_elim in Hslash as [_ Hslash].
Qed.

Lemma choice_plain n :
  tempfile.choice n <> "."%char /\ tempfile.choice n <> "/"%char.
Proof.
  unfold tempfile.choice.
  assert (List.Forall (fun a => a <> "."%char /\ a <> "/"%char)
            (list_ascii_of_string tempfile.characters)) as Hall.
  { unfold tempfile.characters. simpl. repeat constructor; discriminate. }
  rewrite List.Forall_forall in Hall. apply Hall, nth_In.
  change (length (list_ascii_of_string tempfile.characters)) with 37%nat.
  by apply Nat.mod_upper_bound.
Qed.

Lemma name_of_plain draws :
  Str.contains "." (tempfile.name_of draws) = false
  /\ Str.contains "/" (tempfile.name_of draws) = false.
Proof.
  unfold tempfile.name_of.
  induction draws as [|n draws [IHdot IHslash]]; simpl; [done|].
  destruct (choice_plain n) as [Hdot Hslash].
  apply Ascii.eqb_neq in Hdot, Hslash. by rewrite Hdot, Hslash.
Qed.

Lemma suffix_candidate dir draws filename :
  PurePath.suffix
    (tempfile.candidate dir "tmp" (PurePath.suffix filename) draws)
  = PurePath.suffix filename.
Proof.
  destruct (name_of_plain draws) as [Hdot Hslash].
  unfold tempfile.candidate.
  set (stem := "tmp" +:+ tempfile.name_of draws).
  assert (Str.contains "." stem = false) as Hstem_dot.
  { unfold stem. by rewrite contains_app, Hdot. }
  assert (Str.contains "/" stem = false) as Hstem_slash.
  { unfold stem. by rewrite contains_app, Hslash. }
  assert (0 < Str.len stem) as Hlen.
  { unfold stem. rewrite len_app. pose proof (len_nonneg (tempfile.name_of draws)).
    change (Str.len "tmp") with 3. lia. }
  replace ("tmp" +:+ tempfile.name_of draws +:+ PurePath.suffix filename)
    with (stem +:+ PurePath.suffix filename) by (unfold stem; apply append_assoc).
  destruct (suffix_shape filename) as [->|(ext & -> & Hne & Hext_dot & Hext_slash)].
  - rewrite append_empty_r. unfold PurePath.suffix at 1.
    rewrite name_join; [|done|by unfold stem].
    by rewrite rfind_absent.
  - unfold PurePath.suffix at 1.
    rewrite name_join; cycle 1.
    { rewrite contains_app, Hstem_slash. simpl. done. }
    { by unfold stem. }
    rewrite rfind_app, len_app, len_cons, slice_from_app by done.
    destruct ext as [|b ext]; [done|]. rewrite len_cons.
    pose proof (len_nonneg ext).
    by decide_ltb; try lia.
Qed.

(** ** The shape of a run *)

Section Shape.
Variables (env : Env) (file : UploadFile) (files : gmap string bytes).

Lemma pending_shape :
  (temp_file (pending env file files).2 = None
     /\ fs (pending env file files).2 = files
     /\ (log (pending env file files).2 = []
         \/ exists sfx e, log (pending env file files).2 = [EvNamedTemporaryFile sfx (inl e)]))
  \/ (exists f sfx rest,
        temp_file (pending env file files).2 = Some f
        /\ temp_file_path (pending env file files).2 = Some (tf_name f)
        /\ log (pending env file files).2 = EvNamedTemporaryFile sfx (inr (tf_name f)) :: rest
        /\ forallb inner_event rest = true).
Proof.
  unfold pending. execute.
  all: try (left; split; [reflexivity|split; [reflexivity|]]; eauto; fail).
  all: right; eexists _, _, _; repeat split; reflexivity.
Qed.

Lemma run_unfold :
  Str.truthy (filename file) = true ->
  run env file files =
    match finally_block env (pending env file files).2 with
    | (Normal _, s) => ((pending env file files).1, s)
    | (Raised e, s) => (Raised e, s)
    end.
Proof.
  intros Hname. unfold run, extract_text. rewrite Hname. simpl.
  unfold pending.
  change (set_temp_file None (initial files)) with (initial files).
  unfold mbind, M_bind, bind, modify, try_finally. simpl.
  change (set_temp_file None (initial files)) with (initial files).
  destruct (try_except_Exception (try_block env file) except_block (initial files)) as [c s1].
  simpl. destruct (finally_block env s1) as [[[]|e] s2]; reflexivity.
Qed.

Lemma run_without_file :
  Str.truthy (filename file) = true ->
  temp_file (pending env file files).2 = None ->
  run env file files = pending env file files.
Proof.
  intros Hname Hnone. rewrite run_unfold by done.
  unfold finally_block, get, mbind, M_bind, bind. simpl. rewrite Hnone.
  by destruct (pending env file files).
Qed.

Lemma run_with_file f :
  Str.truthy (filename file) = true ->
  temp_file (pending env file files).2 = Some f ->
  temp_file_path (pending env file files).2 = Some (tf_name f) ->
  run env file files =
    let s1 := (pending env file files).2 in
    let p := tf_name f in
    match exists_error env with
    | Some e => (Raised e, emit (EvExistsError p e) s1)
    | None =>
        if bool_decide (is_Some (fs s1 !! p)) then
          match unlink_error env with
          | Some e =>
              (Raised e, emit (EvUnlink p true (Some e)) (emit (EvExists p true) s1))
          | None =>
              ((pending env file files).1,
               set_fs (delete p (fs s1))
                 (emit (EvUnlink p true None) (emit (EvExists p true) s1)))
          end
        else ((pending env file files).1, emit (EvExists p false) s1)
    end.
Proof.
  intros Hname Hfile Hpath. rewrite run_unfold by done.
  unfold finally_block, load_temp_file_path, Path_exists, os_unlink,
    get, mbind, M_bind, bind, mret, M_ret, ret.
  simpl. rewrite Hfile, Hpath. simpl.
  destruct (exists_error env); [done|].
  case_bool_decide; simpl; [|done].
  rewrite bool_decide_true by done.
  by destruct (unlink_error env).
Qed.
End Shape.

Lemma inner_not_cleanup rest :
  forallb inner_event rest = true -> List.filter is_cleanup rest = [].
Proof.
  induction rest as [|[] rest IH]; simpl; intros H; try done; by apply IH.
Qed.

Lemma inner_not_creation rest suffix res :
  forallb inner_event rest = true -> ~ In (EvNamedTemporaryFile suffix res) rest.
Proof.
  induction rest as [|ev rest IH]; simpl; [tauto|].
  intros [Hev Hrest]%andb_prop [Heq|Hin]; [by subst|by apply IH].
Qed.

Lemma inner_not_unlink rest path existed res :
  forallb inner_event rest = true -> ~ In (EvUnlink path existed res) rest.
Proof.
  induction rest as [|ev rest IH]; simpl; [tauto|].
  intros [Hev Hrest]%andb_prop [Heq|Hin]; [by subst|by apply IH].
Qed.

Lemma inner_unlink_failure rest tail :
  forallb inner_event rest = true ->
  unlink_failure (rest ++ tail) = unlink_failure tail.
Proof.
  induction rest as [|[] rest IH]; simpl; intros H; try done; by apply IH.
Qed.

Lemma inner_cleanup_failure rest tail :
  forallb inner_event rest = true ->
  cleanup_failure (rest ++ tail) = cleanup_failure tail.
Proof.
  induction rest as [|[] rest IH]; simpl; intros H; try done; by apply IH.
Qed.

Lemma pending_same_unlink err env file files :
  pending (with_unlink_error err env) file files = pending env file files.
Proof. reflexivity. Qed.

Lemma mkstemp_inner_inr dir pre suf names files path :
  tempfile.mkstemp_inner dir pre suf names files = inr path ->
  files !! path = None
  /\ exists draws, path = tempfile.candidate dir pre suf draws.
Proof.
  induction names as [|draws names IH]; simpl; [done|].
  case_bool_decide as Htaken; [done|]. intros [= <-]. split; [|by eexists].
  destruct (files !! _) eqn:E; [|done]. destruct Htaken. eauto.
Qed.

(** The cases of a request whose file name is present. *)
Lemma run_cases env file files :
  Str.truthy (filename file) = true ->
  (response env file files = (pending env file files).1
     /\ events env file files = log (pending env file files).2
     /\ files_after env file files = files
     /\ (events env file files = []
         \/ exists suffix e, events env file files = [EvNamedTemporaryFile suffix (inl e)]))
  \/ (exists path suffix rest found,
        log (pending env file files).2 = EvNamedTemporaryFile suffix (inr path) :: rest
        /\ forallb inner_event rest = true
        /\ found = bool_decide (is_Some (fs (pending env file files).2 !! path))
        /\ events env file files =
             EvNamedTemporaryFile suffix (inr path) :: rest
               ++ cleanup_events env path found
        /\ response env file files =
             match cleanup_exception env found with
             | Some e => Raised e
             | None => (pending env file files).1
             end
        /\ files_after env file files =
             match cleanup_exception env found with
             | Some _ => fs (pending env file files).2
             | None =>
                 if found then delete path (fs (pending env file files).2)
                 else fs (pending env file files).2
             end).
Proof.
  intros Hname. unfold response, events, files_after.
  destruct (pending_shape env file files)
    as [(Hnone & Hfs & Hlog)|(f & suffix & rest & Hfile & Hpath & Hlog & Hrest)].
  - left. rewrite run_without_file by done. by rewrite Hfs.
  - right. exists (tf_name f), suffix, rest,
      (bool_decide (is_Some (fs (pending env file files).2 !! tf_name f))).
    rewrite (run_with_file _ _ _ f) by done.
    unfold cleanup_events, cleanup_exception. simpl.
    destruct (exists_error env); [|case_bool_decide; [destruct (unlink_error env)|]];
      simpl; rewrite Hlog; simpl; rewrite <- ?app_assoc; done.
Qed.

Lemma pending_raised env file files e :
  (try_block env file (initial files)).1 = Raised e ->
  is_Exception e = true ->
  (pending env file files).1 =
    Raised (HTTPException 500 ("Error processing document: " +:+ str e)).
Proof.
  unfold pending, try_except_Exception.
  destruct (try_block env file (initial files)) as [c s]. simpl.
  intros -> ->. reflexivity.
Qed.

Lemma pending_export env file files text :
  In (EvExport (inr text)) (log (pending env file files).2) ->
  (pending env file files).1 = Normal (extraction_result file text).
Proof.
  unfold pending. execute; intros Hin; simpl in Hin;
    repeat (destruct Hin as [Hin|Hin]; [try discriminate|]); try done.
  all: by simplify_eq.
Qed.

Lemma pending_normal env file files r :
  (pending env file files).1 = Normal r ->
  exists name draws text contents,
    filename file = Some name
    /\ r = extraction_result file text
    /\ In (EvExport (inr text)) (log (pending env file files).2)
    /\ contents !! tempfile.candidate (gettempdir env) "tmp" (PurePath.suffix name) draws
         = Some (payload file)
    /\ engine_text env
         (tempfile.candidate (gettempdir env) "tmp" (PurePath.suffix name) draws)
         contents = Some text.
Proof.
  unfold pending. execute; intros Hr; try discriminate.
  simplify_eq.
  match goal with
  | H : tempfile.mkstemp_inner _ _ _ _ _ = inr _ |- _ =>
      apply mkstemp_inner_inr in H as [Hfree [draws ->]]
  end.
  eexists _, draws, _, _. split; [done|]. split; [done|]. split.
  { simpl. auto 20. }
  split; cycle 1.
  { unfold engine_text.
    match goal with H : convert _ _ _ = _ |- _ => rewrite H end. simpl.
    match goal with H : export_to_markdown _ _ = _ |- _ => by rewrite H end. }
  rewrite !lookup_alter_eq, lookup_insert_eq. simpl. by rewrite app_nil_r.
Qed.

Lemma run_rejected env file files :
  Str.truthy (filename file) = false ->
  run env file files = (Raised (HTTPException 400 "No file provided"), initial files).
Proof. intros Hname. unfold run, extract_text. by rewrite Hname. Qed.

Lemma cleanup_events_failure env path found :
  cleanup_failure (cleanup_events env path found) = cleanup_exception env found
  /\ unlink_failure (cleanup_events env path found)
     = match exists_error env with
       | Some _ => None
       | None => if found then unlink_error env else None
       end.
Proof.
  unfold cleanup_events, cleanup_exception.
  destruct (exists_error env); [done|]. destruct found; [|done].
  by destruct (unlink_error env).
Qed.

Lemma cleanup_failure_events env file files :
  Str.truthy (filename file) = true ->
  response env file files =
    match cleanup_failure (events env file files) with
    | Some e => Raised e
    | None => (pending env file files).1
    end.
Proof.
  intros Hname.
  destruct (run_cases env file files Hname)
    as [(-> & _ & _ & [->| (suffix & e & ->)])
       |(path & suffix & rest & found & _ & Hrest & _ & -> & -> & _)];
    [done..|].
  simpl. rewrite inner_cleanup_failure by done.
  by destruct (cleanup_events_failure env path found) as [-> _].
Qed.

Lemma cleanup_events_are_cleanup env path found ev :
  In ev (cleanup_events env path found) -> is_cleanup ev = true.
Proof.
  unfold cleanup_events.
  destruct (exists_error env); [|destruct found]; simpl; intuition (by subst).
Qed.

Lemma events_of_pending env file files ev :
  is_cleanup ev = false ->
  In ev (events env file files) -> In ev (log (pending env file files).2).
Proof.
  intros Hev Hin.
  destruct (Str.truthy (filename file)) eqn:Hname; cycle 1.
  { unfold events in Hin. rewrite run_rejected in Hin by done. destruct Hin. }
  destruct (run_cases env file files Hname)
    as [(_ & <- & _)|(path & suffix & rest & found & -> & _ & _ & Hevents & _)];
    [done|].
  rewrite Hevents in Hin. simpl in *. destruct Hin as [Hin|Hin]; [by left|right].
  apply in_app_or in Hin as [Hin|Hin]; [done|].
  apply cleanup_events_are_cleanup in Hin. congruence.
Qed.

Lemma response_normal env file files r :
  response env file files = Normal r ->
  Str.truthy (filename file) = true /\ (pending env file files).1 = Normal r.
Proof.
  intros Hr.
  destruct (Str.truthy (filename file)) eqn:Hname; cycle 1.
  { unfold response in Hr. by rewrite run_rejected in Hr. }
  split; [done|].
  rewrite cleanup_failure_events in Hr by done.
  by destruct (cleanup_failure _).
Qed.

Lemma decode_calm : engine_is calm decode.
Proof.
  intros path files. unfold engine_text, decode. simpl. unfold plain_text_convert.
  by destruct (files !! path).
Qed.

Lemma decode_elsewhere : engine_is elsewhere decode.
Proof.
  intros path files. unfold engine_text, decode. simpl. unfold plain_text_convert.
  by destruct (files !! path).
Qed.

Lemma returned_text env f file files r :
  engine_is env f ->
  response env file files = Normal r ->
  exists name text,
    filename file = Some name
    /\ r = extraction_result file text
    /\ f (Some (payload file)) (PurePath.suffix name) = Some text.
Proof.
  intros Hengine [_ Hr]%response_normal.
  apply pending_normal in Hr
    as (name & draws & text & contents & Hname & -> & _ & Hcontents & Htext).
  exists name, text. split; [done|]. split; [done|].
  by rewrite Hengine, Hcontents, suffix_candidate in Htext.
Qed.

(** ** More on the shape of a run *)

Lemma mkstemp_inner_drawn dir pre suf names files path :
  tempfile.mkstemp_inner dir pre suf names files = inr path ->
  files !! path = None
  /\ exists draws, In draws names /\ path = tempfile.candidate dir pre suf draws.
Proof.
  induction names as [|draws names IH]; simpl; [done|].
  case_bool_decide as Htaken.
  - intros [Hfree (d & Hd & ->)]%IH. split; [done|]. exists d. auto.
  - intros [= <-]. split; [|exists draws; auto].
    destruct (files !! _) eqn:E; [|done]. destruct Htaken. eauto.
Qed.

Lemma mkstemp_inner_free dir pre suf names (files : gmap string bytes) draws :
  In draws names ->
  files !! tempfile.candidate dir pre suf draws = None ->
  exists path, tempfile.mkstemp_inner dir pre suf names files = inr path.
Proof.
  induction names as [|d names IH]; simpl; [done|].
  intros Hin Hfree. case_bool_decide as Htaken; [|by eexists].
  destruct Hin as [->|Hin]; [|by apply IH].
  rewrite Hfree in Htaken. by destruct Htaken.
Qed.

Lemma written_file (files : gmap string bytes) path content :
  alter (fun old => old ++ []) path
    (alter (fun old => old ++ content) path (<[path:=[]]> files))
  = <[path:=content]> files.
Proof.
  apply map_eq. intros q. destruct (decide (path = q)) as [->|Hne].
  - rewrite !lookup_alter_eq, !lookup_insert_eq. simpl. by rewrite app_nil_r.
  - by rewrite !lookup_alter_ne, !lookup_insert_ne.
Qed.

Lemma pending_creation env file files suffix path rest :
  log (pending env file files).2 = EvNamedTemporaryFile suffix (inr path) :: rest ->
  (exists name draws,
     filename file = Some name
     /\ suffix = PurePath.suffix name
     /\ In draws (candidate_names env)
     /\ path = tempfile.candidate (gettempdir env) "tmp" suffix draws
     /\ files !! path = None)
  /\ exists res, List.filter is_close rest = [EvClose path res].
Proof.
  unfold pending. execute; intros Hlog; simplify_eq.
  all: match goal with
       | H : tempfile.mkstemp_inner _ _ _ _ _ = inr _ |- _ =>
           apply mkstemp_inner_drawn in H as [Hfree (draws & Hdraws & ->)]
       end.
  all: split; [by eexists _, draws|by eexists].
Qed.

Lemma created_events env file files path :
  creates (events env file files) path ->
  exists suffix rest found,
    Str.truthy (filename file) = true
    /\ log (pending env file files).2 = EvNamedTemporaryFile suffix (inr path) :: rest
    /\ forallb inner_event rest = true
    /\ found = bool_decide (is_Some (fs (pending env file files).2 !! path))
    /\ events env file files =
         EvNamedTemporaryFile suffix (inr path) :: rest
           ++ cleanup_events env path found
    /\ response env file files =
         match cleanup_exception env found with
         | Some e => Raised e
         | None => (pending env file files).1
         end
    /\ files_after env file files =
         match cleanup_exception env found with
         | Some _ => fs (pending env file files).2
         | None =>
             if found then delete path (fs (pending env file files).2)
             else fs (pending env file files).2
         end.
Proof.
  intros [suffix Hin].
  destruct (Str.truthy (filename file)) eqn:Hname; cycle 1.
  { unfold events in Hin. rewrite run_rejected in Hin by done. destruct Hin. }
  destruct (run_cases env file files Hname)
    as [(_ & _ & _ & [Hev|(sfx & e & Hev)])
       |(p & sfx & rest & found & Hlog & Hrest & Hfound & Hev & Hresp & Hfs)].
  - rewrite Hev in Hin. destruct Hin.
  - rewrite Hev in Hin. destruct Hin as [[=]|[]].
  - assert (p = path) as ->.
    { rewrite Hev in Hin. destruct Hin as [[=]|Hin]; [done|].
      apply in_app_or in Hin as [Hin|Hin]; [by apply inner_not_creation in Hin|].
      by apply cleanup_events_are_cleanup in Hin. }
    by exists sfx, rest, found.
Qed.

Lemma pending_convert env file files path res :
  In (EvConvert path res) (log (pending env file files).2) ->
  files !! path = None
  /\ res = convert_result env path (<[path := payload file]> files)
  /\ exists suffix rest,
       log (pending env file files).2 =
         [EvNamedTemporaryFile suffix (inr path); EvRead None;
          EvWrite path None; EvFlush path None; EvClose path None;
          EvDocumentConverter None; EvConvert path res] ++ rest
       /\ forallb (fun ev => Nat.eqb (kind ev) 7) rest = true.
Proof.
  unfold pending. execute; intros Hin; simpl in Hin;
    repeat (destruct Hin as [Hin|Hin]; [try discriminate|]); try done.
  all: simplify_eq.
  all: match goal with
       | H : tempfile.mkstemp_inner _ _ _ _ _ = inr _ |- _ =>
           apply mkstemp_inner_drawn in H as [Hfree _]
       end.
  all: split; [done|].
  all: match goal with
       | H : convert _ _ _ = _ |- _ => rewrite written_file in H
       end.
  all: split; [unfold convert_result;
               match goal with H : convert _ _ _ = _ |- _ => by rewrite H end|].
  all: by eexists _, _.
Qed.

Lemma pending_of_try env file files :
  (pending env file files).1 =
    match (try_block env file (initial files)).1 with
    | Normal r => Normal r
    | Raised e =>
        if is_Exception e
        then Raised (HTTPException 500 ("Error processing document: " +:+ str e))
        else Raised e
    end.
Proof.
  unfold pending, try_except_Exception.
  destruct (try_block env file (initial files)) as [[r|e] s]; simpl; [done|].
  by destruct (is_Exception e).
Qed.

Lemma pending_in_events env file files ev :
  Str.truthy (filename file) = true ->
  In ev (log (pending env file files).2) -> In ev (events env file files).
Proof.
  intros Hname Hin.
  destruct (run_cases env file files Hname)
    as [(_ & -> & _)|(p & sfx & rest & found & Hlog & _ & _ & -> & _)]; [done|].
  rewrite Hlog in Hin. destruct Hin as [<-|Hin]; [by left|right].
  apply in_or_app. by left.
Qed.

Lemma pending_creation_failed env file files suffix e :
  log (pending env file files).2 = [EvNamedTemporaryFile suffix (inl e)] ->
  (try_block env file (initial files)).1 = Raised e.
Proof.
  unfold pending. execute; intros Hlog; by simplify_eq.
Qed.

Lemma engine_text_Some env path files text :
  engine_text env path files = Some text ->
  exists doc, (convert env path files).1 = inr doc
              /\ export_to_markdown env doc = inr text.
Proof.
  unfold engine_text. destruct (convert env path files).1 as [e|doc]; [done|].
  destruct (export_to_markdown env doc) as [e|t] eqn:E; [done|].
  intros [= ->]. by exists doc.
Qed.


Lemma pending_same_processing env file1 file2 files name1 name2 :
  filename file1 = Some name1 -> filename file2 = Some name2 ->
  PurePath.suffix name1 = PurePath.suffix name2 ->
  payload file1 = payload file2 ->
  (pending env file1 files).2 = (pending env file2 files).2
  /\ match (pending env file1 files).1 with
     | Normal r =>
         exists text, r = extraction_result file1 text
                      /\ (pending env file2 files).1
                         = Normal (extraction_result file2 text)
     | Raised e => (pending env file2 files).1 = Raised e
     end.
Proof.
  intros Hname1 Hname2 Hsuffix Hpayload.
  unfold pending. unfold_calls. rewrite Hname1, Hname2. simpl.
  rewrite <- Hsuffix, <- Hpayload.
  repeat (step; simpl in * ); try done.
  split; [done|]. by eexists.
Qed.

Lemma pending_kinds env file files :
  NoDup (List.map kind (log (pending env file files).2))
  /\ List.Forall (fun k => (k < 8)%nat) (List.map kind (log (pending env file files).2)).
Proof.
  unfold pending. execute.
  all: split; [apply NoDup_ListNoDup; repeat constructor; simpl; intuition lia
              |repeat constructor; simpl; lia].
Qed.

Lemma calm_has_no_io_failure : no_io_failure calm.
Proof. by repeat split. Qed.


Lemma filter_cleanup_events env path found :
  List.filter is_cleanup (cleanup_events env path found)
  = cleanup_events env path found.
Proof.
  unfold cleanup_events. destruct (exists_error env); [done|]. by destruct found.
Qed.

(** A request whose [try] created [path]. *)
Lemma run_created env file files suffix path rest :
  Str.truthy (filename file) = true ->
  log (pending env file files).2 = EvNamedTemporaryFile suffix (inr path) :: rest ->
  forallb inner_event rest = true
  /\ events env file files =
       EvNamedTemporaryFile suffix (inr path) :: rest
         ++ cleanup_events env path
              (bool_decide (is_Some (fs (pending env file files).2 !! path)))
  /\ response env file files =
       match cleanup_exception env
               (bool_decide (is_Some (fs (pending env file files).2 !! path))) with
       | Some e => Raised e
       | None => (pending env file files).1
       end.
Proof.
  intros Hname Hlog.
  destruct (run_cases env file files Hname)
    as [(_ & Hev & _ & [Hnil|(sfx & e & Hone)])
       |(p & sfx & rest' & found & Hlog' & Hrest & -> & Hev & Hresp & _)].
  - rewrite Hnil in Hev. by rewrite <- Hev in Hlog.
  - rewrite Hone in Hev. by rewrite <- Hev in Hlog.
  - rewrite Hlog in Hlog'. by injection Hlog' as <- <- <-.
Qed.

(** Where a failure of the cleanup comes from. *)
Lemma cleanup_failure_origin env file files e :
  cleanup_failure (events env file files) = Some e ->
  (exists_error env = Some e
   /\ unlink_failure (events env file files) = None
   /\ exists path, In (EvExistsError path e) (events env file files))
  \/ (exists_error env = None
      /\ unlink_error env = Some e
      /\ unlink_failure (events env file files) = Some e).
Proof.
  intros Hfail.
  destruct (Str.truthy (filename file)) eqn:Hname; cycle 1.
  { unfold events in Hfail. by rewrite run_rejected in Hfail. }
  destruct (run_cases env file files Hname)
    as [(_ & _ & _ & [Hev|(sfx & e' & Hev)])
       |(p & sfx & rest & found & _ & Hrest & _ & Hev & _)];
    rewrite Hev in Hfail |- *; [done..|].
  simpl in *. rewrite inner_cleanup_failure in Hfail by done.
  rewrite inner_unlink_failure by done.
  unfold cleanup_events in *.
  destruct (exists_error env) as [e'|].
  - left. simpl in Hfail. injection Hfail as ->. repeat split; try done.
    exists p. right. apply in_or_app. right. by left.
  - right. destruct found; [|done]. simpl in *.
    by destruct (unlink_error env); simplify_eq.
Qed.

(** The suffix given to [NamedTemporaryFile], and the suffix of the path
    it yields. *)
Lemma pending_suffix env file files suffix res :
  In (EvNamedTemporaryFile suffix res) (log (pending env file files).2) ->
  exists name,
    filename file = Some name
    /\ suffix = PurePath.suffix name
    /\ forall path, res = inr path -> PurePath.suffix path = suffix.
Proof.
  unfold pending. execute; intros Hin; simpl in Hin;
    repeat (destruct Hin as [Hin|Hin]; [try discriminate|]); try done.
  all: simplify_eq; eexists; split; [done|]; split; [done|].
  all: intros path [= <-]; try done.
  all: match goal with
       | H : tempfile.mkstemp_inner _ _ _ _ _ = inr _ |- _ =>
           apply mkstemp_inner_drawn in H as [_ (draws & _ & ->)]
       end.
  all: apply suffix_candidate.
Qed.

(** * Runs on concrete worlds *)

Example suffix_txt : PurePath.suffix "note.txt" = ".txt".
Proof. reflexivity. Qed.

Example suffix_tar_gz : PurePath.suffix "/srv/in/a.tar.gz" = ".gz".
Proof. reflexivity. Qed.

Example suffix_none : PurePath.suffix "README" = "".
Proof. reflexivity. Qed.

Example suffix_trailing_dot : PurePath.suffix "report." = "".
Proof. reflexivity. Qed.

Example suffix_directory_dot : PurePath.suffix "v1.2/notes" = "".
Proof. reflexivity. Qed.

(** Scenario A: [note.txt] with body ["hello"], through an engine that
    passes plain text through. *)
Example scenario_note_txt :
  http_response (response calm note_txt ∅)
  = Some (200, JsonBody (JObj [("filename", JStr "note.txt");
                               ("content_type", JStr "text/plain");
                               ("text", JStr "hello");
                               ("success", JBool true)]))
  /\ events calm note_txt ∅
     = [EvNamedTemporaryFile ".txt" (inr "/tmp/tmpabcdefgh.txt");
        EvRead None;
        EvWrite "/tmp/tmpabcdefgh.txt" None;
        EvFlush "/tmp/tmpabcdefgh.txt" None;
        EvClose "/tmp/tmpabcdefgh.txt" None;
        EvDocumentConverter None;
        EvConvert "/tmp/tmpabcdefgh.txt" None;
        EvExport (inr "hello");
        EvExists "/tmp/tmpabcdefgh.txt" true;
        EvUnlink "/tmp/tmpabcdefgh.txt" true None]
  /\ files_after calm note_txt ∅ = ∅.
Proof. repeat split; reflexivity. Qed.

(** Scenario C: the engine rejects the document. *)
Example scenario_rejected_document :
  http_response (response unreadable note_txt ∅)
  = Some (500, JsonBody (JObj [("detail",
                                JStr "Error processing document: bad")]))
  /\ files_after unreadable note_txt ∅ = ∅.
Proof. split; reflexivity. Qed.

(** A candidate name that is taken is skipped. *)
Example taken_name_is_skipped :
  events calm note_txt {["/tmp/tmpabcdefgh.txt" := []]}
  = [EvNamedTemporaryFile ".txt" (inr "/tmp/tmpijklmnop.txt");
     EvRead None;
     EvWrite "/tmp/tmpijklmnop.txt" None;
     EvFlush "/tmp/tmpijklmnop.txt" None;
     EvClose "/tmp/tmpijklmnop.txt" None;
     EvDocumentConverter None;
     EvConvert "/tmp/tmpijklmnop.txt" None;
     EvExport (inr "hello");
     EvExists "/tmp/tmpijklmnop.txt" true;
     EvUnlink "/tmp/tmpijklmnop.txt" true None].
Proof. reflexivity. Qed.

(** An exception outside [Exception] is not caught by the [except]
    clause; the [finally] clause still removes the file. *)
Example cancellation_is_not_translated :
  response cancelled note_txt ∅ = Raised (BaseExc "CancelledError" "")
  /\ events cancelled note_txt ∅
     = [EvNamedTemporaryFile ".txt" (inr "/tmp/tmpabcdefgh.txt");
        EvRead (Some (BaseExc "CancelledError" ""));
        EvClose "/tmp/tmpabcdefgh.txt" None;
        EvExists "/tmp/tmpabcdefgh.txt" true;
        EvUnlink "/tmp/tmpabcdefgh.txt" true None]
  /\ files_after cancelled note_txt ∅ = ∅.
Proof. repeat split; reflexivity. Qed.

(** A file that is gone when the [finally] clause runs is not unlinked. *)
Example vanished_file_is_not_unlinked :
  List.filter is_cleanup (events consuming note_txt ∅)
  = [EvExists "/tmp/tmpabcdefgh.txt" false].
Proof. reflexivity. Qed.

(** When the existence check of the cleanup is refused, no deletion is
    attempted, the result is lost and the file stays. *)
Example refused_check_leaves_file :
  response unsearchable note_txt ∅ = Raised permission_denied
  /\ List.filter is_cleanup (events unsearchable note_txt ∅)
     = [EvExistsError "/tmp/tmpabcdefgh.txt" permission_denied]
  /\ cleanup_failure (events unsearchable note_txt ∅) = Some permission_denied
  /\ unlink_failure (events unsearchable note_txt ∅) = None
  /\ files_after unsearchable note_txt ∅ !! "/tmp/tmpabcdefgh.txt"
     = Some (payload note_txt).
Proof. repeat split; reflexivity. Qed.

(** * The claims *)

(** ** Cleanup of the temporary file *)

(** C1, as stated, fails: in the world [stuck] the request creates
    [/tmp/tmpabcdefgh.txt], the single [os.unlink] is refused, and the file
    is still there when the handler is done. *)
Lemma cleanup_can_leave_file :
  creates (events stuck note_txt ∅) "/tmp/tmpabcdefgh.txt"
  /\ List.filter is_unlink (events stuck note_txt ∅)
     = [EvUnlink "/tmp/tmpabcdefgh.txt" true (Some permission_denied)]
  /\ files_after stuck note_txt ∅ !! "/tmp/tmpabcdefgh.txt"
     = Some (payload note_txt)
  /\ ~ (length (List.filter is_unlink (events stuck note_txt ∅)) = 1%nat
        /\ files_after stuck note_txt ∅ !! "/tmp/tmpabcdefgh.txt" = None).
Proof.
  split; [exists ".txt"; vm_compute; auto|].
  split; [reflexivity|]. split; [reflexivity|].
  intros [_ Hgone]. vm_compute in Hgone. discriminate.
Qed.

(** C1 (amended).  For every request that creates a temporary file, on
    every exit path, the cleanup checks once whether the file still exists.
    When the check answers, exactly one deletion attempt is made if the file
    is there and none if it is already gone, and the file does not exist
    afterwards unless that attempt fails.  When the check itself raises,
    no deletion attempt is made, the exception of the check leaves the
    handler, and the filesystem stays as the [try] left it. *)
Theorem cleanup_after_creation env file files path :
  creates (events env file files) path ->
  match exists_error env with
  | Some e =>
      List.filter is_cleanup (events env file files) = [EvExistsError path e]
      /\ response env file files = Raised e
      /\ files_after env file files = fs (pending env file files).2
  | None =>
      exists found : bool,
        List.filter is_cleanup (events env file files) =
          EvExists path found
            :: (if found then [EvUnlink path true (unlink_error env)] else [])
        /\ (files_after env file files !! path = None
            <-> found = false \/ unlink_error env = None)
  end.
Proof.
  intros (suffix & rest & found & _ & _ & Hrest & Hfound & -> & -> & ->)%created_events.
  simpl. rewrite List.filter_app, inner_not_cleanup, filter_cleanup_events by done.
  unfold cleanup_events, cleanup_exception. simpl.
  destruct (exists_error env) as [e|]; [done|].
  exists found. split; [done|].
  destruct found; symmetry in Hfound.
  - apply bool_decide_eq_true in Hfound as [contents Hfound].
    destruct (unlink_error env).
    + rewrite Hfound. split; [done|]. intros [|]; done.
    + rewrite lookup_delete_eq. intuition.
  - apply bool_decide_eq_false in Hfound.
    split; [by left|]. intros _.
    destruct (fs (pending env file files).2 !! path) eqn:E; [|done].
    destruct Hfound. eauto.
Qed.

(** Witness for C1 (amended): the request for [note.txt] in the calm
    world. *)
Lemma cleanup_after_creation_witness :
  creates (events calm note_txt ∅) "/tmp/tmpabcdefgh.txt"
  /\ match exists_error calm with
     | Some e =>
         List.filter is_cleanup (events calm note_txt ∅)
         = [EvExistsError "/tmp/tmpabcdefgh.txt" e]
         /\ response calm note_txt ∅ = Raised e
         /\ files_after calm note_txt ∅ = fs (pending calm note_txt ∅).2
     | None =>
         exists found : bool,
           List.filter is_cleanup (events calm note_txt ∅) =
             EvExists "/tmp/tmpabcdefgh.txt" found
               :: (if found
                   then [EvUnlink "/tmp/tmpabcdefgh.txt" true (unlink_error calm)]
                   else [])
           /\ (files_after calm note_txt ∅ !! "/tmp/tmpabcdefgh.txt" = None
               <-> found = false \/ unlink_error calm = None)
     end.
Proof.
  assert (creates (events calm note_txt ∅) "/tmp/tmpabcdefgh.txt") as Hcreated.
  { exists ".txt". vm_compute. auto. }
  split; [exact Hcreated|].
  exact (cleanup_after_creation calm note_txt ∅ "/tmp/tmpabcdefgh.txt" Hcreated).
Defined.

(** C2, as stated, fails: with the same upload and the same engine, the
    response is the extraction result when [os.unlink] succeeds and the
    [PermissionError] of [os.unlink] when it is refused. *)
Lemma unlink_failure_changes_response :
  response stuck note_txt ∅ = Raised permission_denied
  /\ response (with_unlink_error None stuck) note_txt ∅
     = Normal (extraction_result note_txt "hello")
  /\ response stuck note_txt ∅
     <> response (with_unlink_error None stuck) note_txt ∅.
Proof. vm_compute. repeat split; discriminate. Qed.

(** C2 (amended).  A deletion that fails during cleanup is surfaced: its
    exception leaves the handler in place of the pending response, success
    or error.  When no deletion fails, the response is the one of the same
    request in the world where [os.unlink] succeeds.  The only deletion
    failure there can be is the one of the platform. *)
Theorem unlink_failure_is_surfaced env file files :
  response env file files =
    match unlink_failure (events env file files) with
    | Some e => Raised e
    | None => response (with_unlink_error None env) file files
    end
  /\ (unlink_failure (events env file files) = None
      \/ unlink_failure (events env file files) = unlink_error env).
Proof.
  destruct (Str.truthy (filename file)) eqn:Hname; cycle 1.
  { unfold response, events. rewrite !run_rejected by done. simpl. auto. }
  destruct (pending_shape env file files)
    as [(Hnone & _ & Hlog)|(f & suffix & rest & _ & _ & Hlog & Hrest)].
  { unfold response, events.
    rewrite (run_without_file (with_unlink_error None env)) by done.
    rewrite (run_without_file env) by done.
    change (pending (with_unlink_error None env) file files)
      with (pending env file files).
    destruct Hlog as [-> | (sfx & e & ->)]; by auto. }
  destruct (run_created env file files _ _ _ Hname Hlog) as (_ & -> & ->).
  destruct (run_created (with_unlink_error None env) file files _ _ _ Hname Hlog)
    as (_ & _ & ->).
  change (pending (with_unlink_error None env) file files)
    with (pending env file files).
  simpl. rewrite inner_unlink_failure by done.
  destruct (cleanup_events_failure env (tf_name f)
              (bool_decide (is_Some (fs (pending env file files).2 !! tf_name f))))
    as [_ ->].
  unfold cleanup_exception. simpl.
  destruct (exists_error env); [by auto|].
  destruct (bool_decide _); [|by auto].
  destruct (unlink_error env); by auto.
Qed.

(** C10.  A deletion is attempted only on a file that this request
    created and that the check just before found in place: the file name
    was present, the creation did not fail, the path existed when
    [os.unlink] was called, and the log ends with the successful check
    followed by the deletion. *)
Theorem unlink_only_existing_created_file env file files path existed res :
  In (EvUnlink path existed res) (events env file files) ->
  existed = true
  /\ Str.truthy (filename file) = true
  /\ creates (events env file files) path
  /\ (forall suffix e, ~ In (EvNamedTemporaryFile suffix (inl e)) (events env file files))
  /\ exists before,
       events env file files = before ++ [EvExists path true; EvUnlink path true res].
Proof.
  intros Hin.
  destruct (Str.truthy (filename file)) eqn:Hname; cycle 1.
  { unfold events in Hin. rewrite run_rejected in Hin by done. destruct Hin. }
  destruct (run_cases env file files Hname)
    as [(_ & _ & _ & [Hev|(sfx & e & Hev)])
       |(p & sfx & rest & found & _ & Hrest & _ & Hev & _)];
    rewrite Hev in Hin |- *; simpl in Hin.
  - destruct Hin.
  - destruct Hin as [[=]|[]].
  - destruct Hin as [[=]|Hin].
    apply in_app_or in Hin as [Hin|Hin]; [by apply inner_not_unlink in Hin|].
    unfold cleanup_events in *.
    destruct (exists_error env); [by destruct Hin as [[=]|[]]|].
    destruct found; simpl in Hin; cycle 1.
    { destruct Hin as [[=]|[]]. }
    destruct Hin as [[=]|[[= -> <- <-]|[]]].
    split; [done|]. split; [done|]. split; [exists sfx; by left|]. split.
    + intros suffix e [[=]|Hin].
      apply in_app_or in Hin as [Hin|Hin]; [by apply inner_not_creation in Hin|].
      simpl in Hin. intuition discriminate.
    + by exists (EvNamedTemporaryFile sfx (inr path) :: rest).
Qed.

(** Witness for C10: the deletion of the request for [note.txt]. *)
Lemma unlink_only_existing_created_file_witness :
  In (EvUnlink "/tmp/tmpabcdefgh.txt" true None) (events calm note_txt ∅)
  /\ true = true
  /\ Str.truthy (filename note_txt) = true
  /\ creates (events calm note_txt ∅) "/tmp/tmpabcdefgh.txt"
  /\ (forall suffix e,
        ~ In (EvNamedTemporaryFile suffix (inl e)) (events calm note_txt ∅))
  /\ exists before,
       events calm note_txt ∅ =
         before ++ [EvExists "/tmp/tmpabcdefgh.txt" true;
                    EvUnlink "/tmp/tmpabcdefgh.txt" true None].
Proof.
  assert (In (EvUnlink "/tmp/tmpabcdefgh.txt" true None) (events calm note_txt ∅))
    as Hin by (vm_compute; auto 20).
  split; [exact Hin|].
  exact (unlink_only_existing_created_file calm note_txt ∅ _ _ _ Hin).
Defined.

(** ** Responses *)

(** C3.  A request whose file name is missing or empty is answered with
    [HTTPException(400, "No file provided")], sent as status 400 with the
    body [{"detail": "No file provided"}]; no call is made (no temporary
    file, no engine) and the filesystem is unchanged. *)
Theorem no_filename_rejected env file files :
  filename file = None \/ filename file = Some "" ->
  response env file files = Raised (HTTPException 400 "No file provided")
  /\ http_response (response env file files)
     = Some (400, JsonBody (JObj [("detail", JStr "No file provided")]))
  /\ events env file files = []
  /\ files_after env file files = files.
Proof.
  intros Hname. unfold response, events, files_after.
  rewrite run_rejected; [done|]. by destruct Hname as [-> | ->].
Qed.

(** Witness for C3: an upload that carries no file name. *)
Lemma no_filename_rejected_witness :
  (filename no_file_part = None \/ filename no_file_part = Some "")
  /\ response calm no_file_part ∅ = Raised (HTTPException 400 "No file provided")
  /\ http_response (response calm no_file_part ∅)
     = Some (400, JsonBody (JObj [("detail", JStr "No file provided")]))
  /\ events calm no_file_part ∅ = []
  /\ files_after calm no_file_part ∅ = ∅.
Proof.
  assert (filename no_file_part = None \/ filename no_file_part = Some "")
    as Hname by (left; reflexivity).
  split; [exact Hname|].
  exact (no_filename_rejected calm no_file_part ∅ Hname).
Defined.

(** C4, as stated, fails: in the world [broken] the engine raises
    [ConversionError("bad")], an [Exception], and the handler ends with the
    [PermissionError] of the refused [os.unlink], not with the 500 whose
    detail is ["Error processing document: bad"]. *)
Lemma translation_lost_on_unlink_failure :
  Str.truthy (filename note_txt) = true
  /\ (try_block broken note_txt (initial ∅)).1 = Raised (Exc "ConversionError" "bad")
  /\ is_Exception (Exc "ConversionError" "bad") = true
  /\ response broken note_txt ∅ = Raised permission_denied
  /\ response broken note_txt ∅
     <> Raised (HTTPException 500 "Error processing document: bad").
Proof. vm_compute. repeat split; discriminate. Qed.

(** C4 (amended).  For a non-empty file name, an instance of [Exception]
    that leaves the [try] block is translated by the one [except] clause
    into [HTTPException(500, "Error processing document: " + str(e))]; this
    is the outcome of the handler, sent as status 500 with that detail,
    unless the cleanup itself raises (the existence check or the deletion),
    in which case the exception of the cleanup leaves the handler instead.
    In neither case is a result returned. *)
Theorem failure_is_translated env file files e :
  Str.truthy (filename file) = true ->
  (try_block env file (initial files)).1 = Raised e ->
  is_Exception e = true ->
  response env file files =
    match cleanup_failure (events env file files) with
    | Some e' => Raised e'
    | None => Raised (HTTPException 500 ("Error processing document: " +:+ str e))
    end
  /\ (cleanup_failure (events env file files) = None ->
      http_response (response env file files)
      = Some (500, JsonBody (JObj [("detail",
                 JStr ("Error processing document: " +:+ str e))])))
  /\ forall r, response env file files <> Normal r.
Proof.
  intros Hname Hraised Hexc.
  rewrite cleanup_failure_events, (pending_raised _ _ _ e) by done.
  destruct (cleanup_failure (events env file files)); by repeat split.
Qed.

(** Witness for C4 (amended): the engine rejects [note.txt]. *)
Lemma failure_is_translated_witness :
  Str.truthy (filename note_txt) = true
  /\ (try_block unreadable note_txt (initial ∅)).1
     = Raised (Exc "ConversionError" "bad")
  /\ is_Exception (Exc "ConversionError" "bad") = true
  /\ response unreadable note_txt ∅ =
       match cleanup_failure (events unreadable note_txt ∅) with
       | Some e' => Raised e'
       | None =>
           Raised (HTTPException 500
             ("Error processing document: " +:+ str (Exc "ConversionError" "bad")))
       end
  /\ (cleanup_failure (events unreadable note_txt ∅) = None ->
      http_response (response unreadable note_txt ∅)
      = Some (500, JsonBody (JObj [("detail",
          JStr ("Error processing document: "
                +:+ str (Exc "ConversionError" "bad")))])))
  /\ forall r, response unreadable note_txt ∅ <> Normal r.
Proof.
  assert (Str.truthy (filename note_txt) = true) as Hname by reflexivity.
  assert ((try_block unreadable note_txt (initial ∅)).1
          = Raised (Exc "ConversionError" "bad")) as Hraised by reflexivity.
  assert (is_Exception (Exc "ConversionError" "bad") = true) as Hexc by reflexivity.
  split; [exact Hname|]. split; [exact Hraised|]. split; [exact Hexc|].
  exact (failure_is_translated unreadable note_txt ∅ _ Hname Hraised Hexc).
Defined.

(** C6, as stated, fails: in the world [stuck] the engine succeeds on
    [note.txt] and exports ["hello"], and the handler ends with the
    [PermissionError] of the refused [os.unlink] instead of returning the
    result. *)
Lemma result_lost_on_unlink_failure :
  filename note_txt = Some "note.txt"
  /\ In (EvExport (inr "hello")) (events stuck note_txt ∅)
  /\ response stuck note_txt ∅ = Raised permission_denied
  /\ response stuck note_txt ∅ <>
       Normal (JObj [("filename", JStr "note.txt");
                     ("content_type", json_of_optional (content_type note_txt));
                     ("text", JStr "hello");
                     ("success", JBool true)]).
Proof. vm_compute. repeat split; try discriminate. auto 20. Qed.

(** C6 (amended).  For a request with a non-empty file name on which the
    engine succeeds, the handler returns the dictionary with the original
    file name, the declared content type (possibly [None]), the exported
    markdown and [success = True], unless the cleanup itself raises (the
    existence check or the deletion), in which case the exception of the
    cleanup leaves the handler instead. *)
Theorem success_result env file files name text :
  filename file = Some name ->
  In (EvExport (inr text)) (events env file files) ->
  name <> ""
  /\ response env file files =
       match cleanup_failure (events env file files) with
       | Some e => Raised e
       | None =>
           Normal (JObj [("filename", JStr name);
                         ("content_type", json_of_optional (content_type file));
                         ("text", JStr text);
                         ("success", JBool true)])
       end.
Proof.
  intros Hfile Hin.
  destruct (Str.truthy (filename file)) eqn:Hname; cycle 1.
  { unfold events in Hin. rewrite run_rejected in Hin by done. destruct Hin. }
  split. { intros ->. by rewrite Hfile in Hname. }
  rewrite cleanup_failure_events by done.
  apply events_of_pending in Hin; [|done].
  rewrite (pending_export _ _ _ text Hin).
  unfold extraction_result. by rewrite Hfile.
Qed.

(** Witness for C6 (amended): [note.txt] in the calm world. *)
Lemma success_result_witness :
  filename note_txt = Some "note.txt"
  /\ In (EvExport (inr "hello")) (events calm note_txt ∅)
  /\ "note.txt" <> ""
  /\ response calm note_txt ∅ =
       match cleanup_failure (events calm note_txt ∅) with
       | Some e => Raised e
       | None =>
           Normal (JObj [("filename", JStr "note.txt");
                         ("content_type", json_of_optional (content_type note_txt));
                         ("text", JStr "hello");
                         ("success", JBool true)])
       end.
Proof.
  assert (filename note_txt = Some "note.txt") as Hname by reflexivity.
  assert (In (EvExport (inr "hello")) (events calm note_txt ∅))
    as Hin by (vm_compute; auto 20).
  split; [exact Hname|]. split; [exact Hin|].
  exact (success_result calm note_txt ∅ "note.txt" "hello" Hname Hin).
Defined.

(** C9.  A result that [extract_text] returns has [success = True]:
    failure is never reported through a returned result. *)
Theorem returned_result_is_success env file files r :
  response env file files = Normal r ->
  field "success" r = Some (JBool true).
Proof.
  intros [_ Hr]%response_normal.
  apply pending_normal in Hr as (name & draws & text & contents & _ & -> & _).
  reflexivity.
Qed.

(** Witness for C9: the result for [note.txt]. *)
Lemma returned_result_is_success_witness :
  response calm note_txt ∅ = Normal (extraction_result note_txt "hello")
  /\ field "success" (extraction_result note_txt "hello") = Some (JBool true).
Proof.
  assert (response calm note_txt ∅ = Normal (extraction_result note_txt "hello"))
    as Hr by reflexivity.
  split; [exact Hr|].
  exact (returned_result_is_success calm note_txt ∅ _ Hr).
Defined.

(** C8.  [health_check] returns the constant dictionary, sent as status
    200, from every state and leaves the state (filesystem and log) as it
    was: no call is made and nothing is raised. *)
Theorem health_check_constant (s : State) :
  health_check s =
    (Normal (JObj [("status", JStr "healthy");
                   ("service", JStr "document-text-extraction")]), s)
  /\ http_response (health_check s).1 =
       Some (200, JsonBody (JObj [("status", JStr "healthy");
                                  ("service", JStr "document-text-extraction")])).
Proof. split; reflexivity. Qed.

(** ** The suffix of the temporary file *)

(** C5, as stated, fails: for the upload named [.bashrc] the handler
    creates its temporary file with the empty suffix, and everything from
    the last dot of the file name onward is [.bashrc]. *)
Lemma dotfile_has_no_suffix :
  filename bashrc = Some ".bashrc"
  /\ In (EvNamedTemporaryFile "" (inr "/tmp/tmpabcdefgh"))
        (events calm bashrc ∅)
  /\ from_last_dot ".bashrc" = ".bashrc"
  /\ (forall suffix res,
        In (EvNamedTemporaryFile suffix res) (events calm bashrc ∅) ->
        suffix <> from_last_dot ".bashrc").
Proof.
  split; [reflexivity|]. split; [vm_compute; auto|]. split; [reflexivity|].
  intros suffix res Hin. vm_compute in Hin.
  repeat (destruct Hin as [Hin|Hin]; [try discriminate|]); [|done].
  by injection Hin as <- <-.
Qed.

(** C5 (amended).  The suffix with which the handler creates the temporary
    file is the suffix of the final path component of the uploaded file
    name, and it is the suffix of the path of the file created.  Either
    that component is [stem.ext] with a non-empty [stem] and a non-empty
    [ext] without dot, and the suffix is [.ext], which is everything from
    the last dot of the component onward; or the suffix is empty, and the
    component has no dot, or its only dot is its first character, or its
    last dot is its last character. *)
Theorem suffix_of_final_component env file files suffix res :
  In (EvNamedTemporaryFile suffix res) (events env file files) ->
  exists name,
    filename file = Some name
    /\ suffix = PurePath.suffix name
    /\ (forall path, res = inr path -> PurePath.suffix path = suffix)
    /\ ((exists stem ext,
            PurePath.name name = stem +:+ "." +:+ ext
            /\ stem <> "" /\ ext <> "" /\ Str.contains "." ext = false
            /\ suffix = "." +:+ ext
            /\ suffix = from_last_dot (PurePath.name name))
        \/ (suffix = ""
            /\ (Str.contains "." (PurePath.name name) = false
                \/ (exists ext, PurePath.name name = "." +:+ ext
                                /\ Str.contains "." ext = false)
                \/ (exists stem, PurePath.name name = stem +:+ ".")))).
Proof.
  intros Hin. apply events_of_pending in Hin; [|done].
  apply pending_suffix in Hin as (name & Hname & -> & Hpath).
  exists name. split; [done|]. split; [done|]. split; [done|].
  destruct (last_occurrence "." (PurePath.name name))
    as [Habsent|(stem & ext & Hsplit & Hext)].
  { right. split; [by apply suffix_without_dot|by left]. }
  destruct (suffix_at_last_dot name stem ext Hsplit Hext) as [Hsuffix Hlast].
  rewrite Hlast, Hsuffix.
  destruct stem as [|a stem].
  { right. split; [done|]. right; left. by exists ext. }
  destruct ext as [|b ext].
  { right. split; [done|]. right; right. by exists (String a stem). }
  left. by exists (String a stem), (String b ext).
Qed.

(** Witness for C5 (amended): the temporary file of [note.txt]. *)
Lemma suffix_of_final_component_witness :
  In (EvNamedTemporaryFile ".txt" (inr "/tmp/tmpabcdefgh.txt"))
     (events calm note_txt ∅)
  /\ exists name,
       filename note_txt = Some name
       /\ ".txt" = PurePath.suffix name
       /\ (forall path, inr "/tmp/tmpabcdefgh.txt" = inr (A:=exn) path ->
                        PurePath.suffix path = ".txt")
       /\ ((exists stem ext,
               PurePath.name name = stem +:+ "." +:+ ext
               /\ stem <> "" /\ ext <> "" /\ Str.contains "." ext = false
               /\ ".txt" = "." +:+ ext
               /\ ".txt" = from_last_dot (PurePath.name name))
           \/ (".txt" = ""
               /\ (Str.contains "." (PurePath.name name) = false
                   \/ (exists ext, PurePath.name name = "." +:+ ext
                                   /\ Str.contains "." ext = false)
                   \/ (exists stem, PurePath.name name = stem +:+ ".")))).
Proof.
  assert (In (EvNamedTemporaryFile ".txt" (inr "/tmp/tmpabcdefgh.txt"))
             (events calm note_txt ∅)) as Hin by (vm_compute; auto).
  split; [exact Hin|].
  exact (suffix_of_final_component calm note_txt ∅ _ _ Hin).
Defined.

(** ** Repeated calls *)

(** C7.  When the engine is one function of the contents of the file and
    of the suffix of its path, two calls with the same upload that both
    return a result return the same text, whatever the temporary
    directories, the names drawn and the files already present. *)
Theorem same_upload_same_text env1 env2 f file files1 files2 r1 r2 :
  engine_is env1 f -> engine_is env2 f ->
  response env1 file files1 = Normal r1 ->
  response env2 file files2 = Normal r2 ->
  exists text,
    field "text" r1 = Some (JStr text) /\ field "text" r2 = Some (JStr text).
Proof.
  intros H1 H2 Hr1 Hr2.
  destruct (returned_text _ _ _ _ _ H1 Hr1) as (name1 & text1 & Hname1 & -> & Htext1).
  destruct (returned_text _ _ _ _ _ H2 Hr2) as (name2 & text2 & Hname2 & -> & Htext2).
  exists text1. split; [done|]. simplify_eq. reflexivity.
Qed.

(** Witness for C7: [note.txt] in two worlds with different temporary
    names. *)
Lemma same_upload_same_text_witness :
  engine_is calm decode
  /\ engine_is elsewhere decode
  /\ response calm note_txt ∅ = Normal (extraction_result note_txt "hello")
  /\ response elsewhere note_txt {["/tmp/other" := []]}
     = Normal (extraction_result note_txt "hello")
  /\ exists text,
       field "text" (extraction_result note_txt "hello") = Some (JStr text)
       /\ field "text" (extraction_result note_txt "hello") = Some (JStr text).
Proof.
  assert (response calm note_txt ∅ = Normal (extraction_result note_txt "hello"))
    as H1 by reflexivity.
  assert (response elsewhere note_txt {["/tmp/other" := []]}
          = Normal (extraction_result note_txt "hello")) as H2 by reflexivity.
  split; [exact decode_calm|]. split; [exact decode_elsewhere|].
  split; [exact H1|]. split; [exact H2|].
  exact (same_upload_same_text calm elsewhere decode note_txt ∅
           {["/tmp/other" := []]} _ _ decode_calm decode_elsewhere H1 H2).
Defined.

(** * Further properties of the handlers *)

(** ** The outcomes of [extract_text] *)

(** X1.  Every request ends in exactly one of six ways: the 400 for a
    missing file name; the exception of the existence check of the cleanup;
    the exception of a failed [os.unlink]; the result dictionary with the
    text the engine exported; the 500 that translates an [Exception] raised
    in the [try] block; or an exception outside [Exception] raised in the
    [try] block, untranslated. *)
Theorem response_cases env file files :
  (Str.truthy (filename file) = false
     /\ response env file files = Raised (HTTPException 400 "No file provided"))
  \/ (Str.truthy (filename file) = true
      /\ ((exists e path,
              In (EvExistsError path e) (events env file files)
              /\ exists_error env = Some e
              /\ unlink_failure (events env file files) = None
              /\ response env file files = Raised e)
          \/ (exists e, unlink_failure (events env file files) = Some e
                        /\ unlink_error env = Some e
                        /\ response env file files = Raised e)
          \/ (cleanup_failure (events env file files) = None
              /\ ((exists text,
                      In (EvExport (inr text)) (events env file files)
                      /\ response env file files
                         = Normal (extraction_result file text))
                  \/ (exists e,
                        (try_block env file (initial files)).1 = Raised e
                        /\ is_Exception e = true
                        /\ response env file files
                           = Raised (HTTPException 500
                               ("Error processing document: " +:+ str e)))
                  \/ (exists e,
                        (try_block env file (initial files)).1 = Raised e
                        /\ is_Exception e = false
                        /\ response env file files = Raised e))))).
Proof.
  destruct (Str.truthy (filename file)) eqn:Hname; [right|left]; cycle 1.
  { split; [done|]. unfold response. by rewrite run_rejected. }
  split; [done|].
  rewrite (cleanup_failure_events env file files Hname).
  destruct (cleanup_failure (events env file files)) as [e|] eqn:Hcleanup.
  { apply cleanup_failure_origin in Hcleanup
      as [(Hexists & Hunlink & path & Hin)|(_ & Herr & Hunlink)].
    - left. by exists e, path.
    - right; left. by exists e. }
  right; right. split; [done|].
  destruct (pending env file files).1 as [r|e'] eqn:Hpending.
  - left. apply pending_normal in Hpending
      as (name & draws & text & contents & _ & -> & Hin & _).
    exists text. split; [by apply pending_in_events|done].
  - right. rewrite pending_of_try in Hpending.
    destruct (try_block env file (initial files)).1 as [r|e]; [done|].
    destruct (is_Exception e) eqn:Hexc; [left|right]; exists e; simplify_eq; done.
Qed.

(** X2.  For a non-empty file name, an exception outside [Exception] that
    leaves the [try] block is not caught by the [except] clause: it leaves
    the handler as it is, unless the cleanup itself raises (the existence
    check or the deletion), in which case the exception of the cleanup
    leaves the handler. *)
Theorem base_exception_passes env file files e :
  Str.truthy (filename file) = true ->
  (try_block env file (initial files)).1 = Raised e ->
  is_Exception e = false ->
  response env file files =
    match cleanup_failure (events env file files) with
    | Some e' => Raised e'
    | None => Raised e
    end.
Proof.
  intros Hname Hraised Hbase.
  rewrite cleanup_failure_events by done.
  by rewrite pending_of_try, Hraised, Hbase.
Qed.

(** Witness for X2: the upload is cancelled while it is read. *)
Lemma base_exception_passes_witness :
  Str.truthy (filename note_txt) = true
  /\ (try_block cancelled note_txt (initial ∅)).1
     = Raised (BaseExc "CancelledError" "")
  /\ is_Exception (BaseExc "CancelledError" "") = false
  /\ response cancelled note_txt ∅ =
       match cleanup_failure (events cancelled note_txt ∅) with
       | Some e' => Raised e'
       | None => Raised (BaseExc "CancelledError" "")
       end.
Proof.
  assert (Str.truthy (filename note_txt) = true) as Hname by reflexivity.
  assert ((try_block cancelled note_txt (initial ∅)).1
          = Raised (BaseExc "CancelledError" "")) as Hraised by reflexivity.
  assert (is_Exception (BaseExc "CancelledError" "") = false) as Hbase
    by reflexivity.
  split; [exact Hname|]. split; [exact Hraised|]. split; [exact Hbase|].
  exact (base_exception_passes cancelled note_txt ∅ _ Hname Hraised Hbase).
Defined.

(** X3.  When the creation of the temporary file fails, it is the only
    call of the request: nothing is read, the engine is not built, no
    existence check and no deletion is made, the filesystem is as before,
    and the response is the translation of the failure (or the failure
    itself when it is outside [Exception]). *)
Theorem creation_failure_leaves_nothing env file files suffix e :
  In (EvNamedTemporaryFile suffix (inl e)) (events env file files) ->
  events env file files = [EvNamedTemporaryFile suffix (inl e)]
  /\ files_after env file files = files
  /\ response env file files =
       if is_Exception e
       then Raised (HTTPException 500 ("Error processing document: " +:+ str e))
       else Raised e.
Proof.
  intros Hin.
  destruct (Str.truthy (filename file)) eqn:Hname; cycle 1.
  { unfold events in Hin. rewrite run_rejected in Hin by done. destruct Hin. }
  destruct (run_cases env file files Hname)
    as [(Hresp & Hlog & Hfs & [Hev|(sfx & e' & Hev)])
       |(p & sfx & rest & found & _ & Hrest & _ & Hev & _)];
    rewrite Hev in Hin; simpl in Hin.
  - destruct Hin.
  - destruct Hin as [[= <- <-]|[]]. split; [done|]. split; [done|].
    rewrite Hresp, pending_of_try.
    rewrite Hev in Hlog. symmetry in Hlog.
    by rewrite (pending_creation_failed _ _ _ _ _ Hlog).
  - destruct Hin as [[=]|Hin].
    apply in_app_or in Hin as [Hin|Hin]; [by apply inner_not_creation in Hin|].
    by apply cleanup_events_are_cleanup in Hin.
Qed.

(** Witness for X3: the temporary directory is full. *)
Lemma creation_failure_leaves_nothing_witness :
  In (EvNamedTemporaryFile ".txt"
        (inl (Exc "OSError" "[Errno 28] No space left on device")))
     (events full_disk note_txt ∅)
  /\ events full_disk note_txt ∅
     = [EvNamedTemporaryFile ".txt"
          (inl (Exc "OSError" "[Errno 28] No space left on device"))]
  /\ files_after full_disk note_txt ∅ = ∅
  /\ response full_disk note_txt ∅ =
       if is_Exception (Exc "OSError" "[Errno 28] No space left on device")
       then Raised (HTTPException 500
              ("Error processing document: "
               +:+ str (Exc "OSError" "[Errno 28] No space left on device")))
       else Raised (Exc "OSError" "[Errno 28] No space left on device").
Proof.
  assert (In (EvNamedTemporaryFile ".txt"
                (inl (Exc "OSError" "[Errno 28] No space left on device")))
             (events full_disk note_txt ∅)) as Hin by (vm_compute; auto).
  split; [exact Hin|].
  exact (creation_failure_leaves_nothing full_disk note_txt ∅ _ _ Hin).
Defined.

(** X8.  When no call can fail (creation, read, write, flush, close,
    construction of the converter, existence check, deletion), one
    candidate name is free, and the engine yields a text for the payload
    and the suffix of the file name, the handler returns the result
    dictionary with that text. *)
Theorem returns_when_nothing_fails env f file files name draws text :
  filename file = Some name -> name <> "" ->
  no_io_failure env ->
  In draws (candidate_names env) ->
  files !! tempfile.candidate (gettempdir env) "tmp" (PurePath.suffix name) draws
    = None ->
  engine_is env f ->
  f (Some (payload file)) (PurePath.suffix name) = Some text ->
  response env file files = Normal (extraction_result file text).
Proof.
  intros Hname Hne
    (Hopen & Hread & Hwrite & Hflush & Hclose & Hinit & Hexists & Hunlink)
    Hdraws Hfree Hengine Htext.
  destruct (mkstemp_inner_free _ "tmp" _ _ _ _ Hdraws Hfree) as [path Hpath].
  pose proof Hpath as Hshape.
  apply mkstemp_inner_drawn in Hshape as [_ (d & _ & Hd)].
  assert (engine_text env path (<[path := payload file]> files) = Some text)
    as (doc & Hconvert & Hexport)%engine_text_Some.
  { rewrite Hengine, lookup_insert_eq, Hd, suffix_candidate. done. }
  assert (Str.truthy (Some name) = true) as Htruthy by (by destruct name).
  unfold response, run, extract_text. rewrite Hname, Htruthy. simpl.
  unfold_calls. rewrite Hname. simpl.
  rewrite Hopen, Hpath. simpl. rewrite Hread. simpl. rewrite Hwrite. simpl.
  rewrite Hflush. simpl. rewrite Hclose. simpl. rewrite Hinit. simpl.
  rewrite written_file.
  destruct (convert env path (<[path:=payload file]> files)) as [c files'].
  simpl in Hconvert. subst c. simpl. rewrite Hexport. simpl.
  rewrite Hexists. simpl.
  case_bool_decide; simpl; [|done].
  rewrite bool_decide_true by done. rewrite Hunlink. done.
Qed.

(** Witness for X8: [note.txt] in the calm world. *)
Lemma returns_when_nothing_fails_witness :
  filename note_txt = Some "note.txt"
  /\ "note.txt" <> ""
  /\ no_io_failure calm
  /\ In [0; 1; 2; 3; 4; 5; 6; 7]%nat (candidate_names calm)
  /\ (∅ : gmap string bytes)
       !! tempfile.candidate (gettempdir calm) "tmp"
            (PurePath.suffix "note.txt") [0; 1; 2; 3; 4; 5; 6; 7]%nat = None
  /\ engine_is calm decode
  /\ decode (Some (payload note_txt)) (PurePath.suffix "note.txt") = Some "hello"
  /\ response calm note_txt ∅ = Normal (extraction_result note_txt "hello").
Proof.
  assert (filename note_txt = Some "note.txt") as Hname by reflexivity.
  assert ("note.txt" <> "") as Hne by discriminate.
  assert (In [0; 1; 2; 3; 4; 5; 6; 7]%nat (candidate_names calm)) as Hdraws
    by (left; reflexivity).
  assert ((∅ : gmap string bytes)
            !! tempfile.candidate (gettempdir calm) "tmp"
                 (PurePath.suffix "note.txt") [0; 1; 2; 3; 4; 5; 6; 7]%nat = None)
    as Hfree by reflexivity.
  assert (decode (Some (payload note_txt)) (PurePath.suffix "note.txt")
          = Some "hello") as Htext by reflexivity.
  repeat (split; [first [exact Hname|exact Hne|exact calm_has_no_io_failure
                        |exact Hdraws|exact Hfree|exact decode_calm|exact Htext]|]).
  exact (returns_when_nothing_fails calm decode note_txt ∅ "note.txt"
           [0; 1; 2; 3; 4; 5; 6; 7]%nat "hello"
           Hname Hne calm_has_no_io_failure Hdraws Hfree decode_calm Htext).
Defined.

(** ** The temporary file *)

(** X4.  The temporary file is created directly in the temporary
    directory, under a name made of [tmp], one of the drawn names and the
    suffix of the uploaded file name: whatever the uploaded name contains,
    the final component of the path has no slash, the path was free before
    the request, and its suffix is the suffix of the uploaded name. *)
Theorem temporary_path_shape env file files path :
  creates (events env file files) path ->
  exists name draws,
    filename file = Some name
    /\ In draws (candidate_names env)
    /\ path = gettempdir env +:+ "/" +:+ "tmp" +:+ tempfile.name_of draws
                +:+ PurePath.suffix name
    /\ files !! path = None
    /\ PurePath.name path
       = "tmp" +:+ tempfile.name_of draws +:+ PurePath.suffix name
    /\ Str.contains "/" (PurePath.name path) = false
    /\ PurePath.suffix path = PurePath.suffix name.
Proof.
  intros (suffix & rest & found & _ & Hlog & _)%created_events.
  apply pending_creation in Hlog
    as [(name & draws & Hname & -> & Hdraws & -> & Hfree) _].
  exists name, draws. repeat split; try done.
  - unfold tempfile.candidate.
    destruct (name_of_plain draws) as [_ Hslash].
    apply name_join.
    + rewrite !contains_app, Hslash. simpl.
      destruct (suffix_shape name) as [->|(ext & -> & _ & _ & Hext)]; [done|].
      simpl. done.
    + by norm_append.
  - apply name_no_slash.
  - apply suffix_candidate.
Qed.

(** Witness for X4: an uploaded name with a directory part. *)
Lemma temporary_path_shape_witness :
  creates (events calm memo_txt ∅) "/tmp/tmpabcdefgh.txt"
  /\ exists name draws,
       filename memo_txt = Some name
       /\ In draws (candidate_names calm)
       /\ "/tmp/tmpabcdefgh.txt"
          = gettempdir calm +:+ "/" +:+ "tmp" +:+ tempfile.name_of draws
              +:+ PurePath.suffix name
       /\ (∅ : gmap string bytes) !! "/tmp/tmpabcdefgh.txt" = None
       /\ PurePath.name "/tmp/tmpabcdefgh.txt"
          = "tmp" +:+ tempfile.name_of draws +:+ PurePath.suffix name
       /\ Str.contains "/" (PurePath.name "/tmp/tmpabcdefgh.txt") = false
       /\ PurePath.suffix "/tmp/tmpabcdefgh.txt" = PurePath.suffix name.
Proof.
  assert (creates (events calm memo_txt ∅) "/tmp/tmpabcdefgh.txt") as Hcreated.
  { exists ".txt". vm_compute. auto. }
  split; [exact Hcreated|].
  exact (temporary_path_shape calm memo_txt ∅ _ Hcreated).
Defined.

(** X5.  A temporary file that was created is closed exactly once,
    however the request goes on. *)
Theorem file_closed_once env file files path :
  creates (events env file files) path ->
  exists res, List.filter is_close (events env file files) = [EvClose path res].
Proof.
  intros (suffix & rest & found & _ & Hlog & _ & _ & -> & _)%created_events.
  apply pending_creation in Hlog as [_ [res Hclose]].
  exists res. simpl. rewrite List.filter_app, Hclose.
  unfold cleanup_events. destruct (exists_error env); [done|]. by destruct found.
Qed.

(** Witness for X5: the cancelled upload. *)
Lemma file_closed_once_witness :
  creates (events cancelled note_txt ∅) "/tmp/tmpabcdefgh.txt"
  /\ exists res,
       List.filter is_close (events cancelled note_txt ∅)
       = [EvClose "/tmp/tmpabcdefgh.txt" res].
Proof.
  assert (creates (events cancelled note_txt ∅) "/tmp/tmpabcdefgh.txt")
    as Hcreated.
  { exists ".txt". vm_compute. auto. }
  split; [exact Hcreated|].
  exact (file_closed_once cancelled note_txt ∅ _ Hcreated).
Defined.



(** ** The engine *)

(** X6.  The engine is called only after the file was created, the
    upload read, and its bytes written, flushed and the file closed, all
    without error, and after the converter was built: the log starts with
    these calls in this order. *)
Theorem conversion_follows_write env file files path res :
  In (EvConvert path res) (events env file files) ->
  exists suffix rest,
    events env file files =
      [EvNamedTemporaryFile suffix (inr path); EvRead None;
       EvWrite path None; EvFlush path None; EvClose path None;
       EvDocumentConverter None; EvConvert path res] ++ rest.
Proof.
  intros Hin. pose proof Hin as Hpending.
  apply events_of_pending in Hpending; [|done].
  apply pending_convert in Hpending as (_ & _ & suffix & rest & Hlog & _).
  destruct (Str.truthy (filename file)) eqn:Hname; cycle 1.
  { unfold events in Hin. rewrite run_rejected in Hin by done. destruct Hin. }
  destruct (run_cases env file files Hname)
    as [(_ & -> & _)|(p & sfx & rest' & found & Hlog' & _ & _ & -> & _)].
  - by exists suffix, rest.
  - rewrite Hlog in Hlog'. simpl in Hlog'. injection Hlog' as <- <- <-.
    eexists suffix, _. simpl. reflexivity.
Qed.

(** Witness for X6: the engine rejects [note.txt]. *)
Lemma conversion_follows_write_witness :
  In (EvConvert "/tmp/tmpabcdefgh.txt" (Some (Exc "ConversionError" "bad")))
     (events unreadable note_txt ∅)
  /\ exists suffix rest,
       events unreadable note_txt ∅ =
         [EvNamedTemporaryFile suffix (inr "/tmp/tmpabcdefgh.txt"); EvRead None;
          EvWrite "/tmp/tmpabcdefgh.txt" None; EvFlush "/tmp/tmpabcdefgh.txt" None;
          EvClose "/tmp/tmpabcdefgh.txt" None; EvDocumentConverter None;
          EvConvert "/tmp/tmpabcdefgh.txt" (Some (Exc "ConversionError" "bad"))]
         ++ rest.
Proof.
  assert (In (EvConvert "/tmp/tmpabcdefgh.txt" (Some (Exc "ConversionError" "bad")))
             (events unreadable note_txt ∅)) as Hin by (vm_compute; auto 20).
  split; [exact Hin|].
  exact (conversion_follows_write unreadable note_txt ∅ _ _ Hin).
Defined.



(** ** What of the upload is used *)

(** X10.  Of an upload, only the suffix of the file name and the bytes
    take part in the processing: two uploads with non-empty names of equal
    suffix and with equal bytes cause the same calls with the same results
    and leave the same filesystem; both raise the same exception, or both
    return, each its own file name and declared content type with the same
    text. *)
Theorem only_suffix_and_payload_matter env file1 file2 files name1 name2 :
  filename file1 = Some name1 -> name1 <> "" ->
  filename file2 = Some name2 -> name2 <> "" ->
  PurePath.suffix name1 = PurePath.suffix name2 ->
  payload file1 = payload file2 ->
  events env file1 files = events env file2 files
  /\ files_after env file1 files = files_after env file2 files
  /\ match response env file1 files with
     | Normal r =>
         exists text, r = extraction_result file1 text
                      /\ response env file2 files
                         = Normal (extraction_result file2 text)
     | Raised e => response env file2 files = Raised e
     end.
Proof.
  intros Hname1 Hne1 Hname2 Hne2 Hsuffix Hpayload.
  assert (Str.truthy (filename file1) = true) as Htruthy1.
  { rewrite Hname1. by destruct name1. }
  assert (Str.truthy (filename file2) = true) as Htruthy2.
  { rewrite Hname2. by destruct name2. }
  destruct (pending_same_processing env file1 file2 files name1 name2)
    as [Hstate Hresult]; try done.
  unfold events, files_after, response.
  rewrite !run_unfold by done. rewrite Hstate.
  destruct (finally_block env (pending env file2 files).2) as [[[]|e] s]; simpl;
    done.
Qed.

(** Witness for X10: [note.txt] and [minutes/memo.txt]. *)
Lemma only_suffix_and_payload_matter_witness :
  filename note_txt = Some "note.txt" /\ "note.txt" <> ""
  /\ filename memo_txt = Some "minutes/memo.txt" /\ "minutes/memo.txt" <> ""
  /\ PurePath.suffix "note.txt" = PurePath.suffix "minutes/memo.txt"
  /\ payload note_txt = payload memo_txt
  /\ events calm note_txt ∅ = events calm memo_txt ∅
  /\ files_after calm note_txt ∅ = files_after calm memo_txt ∅
  /\ match response calm note_txt ∅ with
     | Normal r =>
         exists text, r = extraction_result note_txt text
                      /\ response calm memo_txt ∅
                         = Normal (extraction_result memo_txt text)
     | Raised e => response calm memo_txt ∅ = Raised e
     end.
Proof.
  assert (filename note_txt = Some "note.txt") as H1 by reflexivity.
  assert ("note.txt" <> "") as H2 by discriminate.
  assert (filename memo_txt = Some "minutes/memo.txt") as H3 by reflexivity.
  assert ("minutes/memo.txt" <> "") as H4 by discriminate.
  assert (PurePath.suffix "note.txt" = PurePath.suffix "minutes/memo.txt")
    as H5 by reflexivity.
  assert (payload note_txt = payload memo_txt) as H6 by reflexivity.
  repeat (split; [first [exact H1|exact H2|exact H3|exact H4|exact H5|exact H6]|]).
  exact (only_suffix_and_payload_matter calm note_txt memo_txt ∅ _ _
           H1 H2 H3 H4 H5 H6).
Defined.

(** ** Nothing is retried *)

(** X11.  No call is made twice in one request: the temporary file is
    created at most once, the upload read at most once, the engine called
    at most once, and at most one existence check and one deletion are
    made. *)
Theorem no_call_is_repeated env file files :
  NoDup (List.map kind (events env file files)).
Proof.
  destruct (Str.truthy (filename file)) eqn:Hname; cycle 1.
  { unfold events. rewrite run_rejected by done. constructor. }
  destruct (pending_kinds env file files) as [Hnodup Hinner].
  destruct (run_cases env file files Hname)
    as [(_ & -> & _)|(p & sfx & rest & found & Hlog & _ & _ & -> & _)]; [done|].
  rewrite Hlog in Hnodup, Hinner.
  change (EvNamedTemporaryFile sfx (inr p) :: rest ++ ?l)
    with ((EvNamedTemporaryFile sfx (inr p) :: rest) ++ l).
  rewrite List.map_app. apply NoDup_app. split; [done|]. split.
  - intros k Hk%list_elem_of_In Hk'.
    rewrite List.Forall_forall in Hinner. apply Hinner in Hk.
    unfold cleanup_events in Hk'.
    destruct (exists_error env); [|destruct found]; simpl in Hk';
      repeat (apply elem_of_cons in Hk' as [->|Hk']; [lia|]);
      by apply elem_of_nil in Hk'.
  - apply NoDup_ListNoDup. unfold cleanup_events.
    destruct (exists_error env); [|destruct found]; simpl;
      repeat constructor; simpl; intuition lia.
Qed.
